(** * Certificates API v0 views and the proctored-exam permission rule

    A shallow embedding of [lms/djangoapps/certificates/apis/v0/views.py]
    (the two certificate views) and of the permission contract exercised by
    [lms/djangoapps/courseware/tests/test_rules.py].

    Python dictionaries holding certificate data are finite maps from
    strings to dynamically typed values; the dictionary that the list view
    iterates over keeps its insertion order.  Calls into the certificate
    and course-overview services are recorded in a trace, exceptions are an
    explicit result. *)

From Stdlib Require Import ZArith Sorting.Sorted.
From stdpp Require Import gmap strings list sorting.

Local Open Scope string_scope.
Local Open Scope list_scope.
Local Open Scope Z_scope.

(** ** Exceptions and the call trace *)

Module Py.

(** The exceptions the view code can let escape. *)
Inductive exn : Type :=
| KeyError
| TypeError.

Definition result (A : Type) : Type := exn + A.

Definition ok {A : Type} (a : A) : result A := inr a.
Definition throw {A : Type} (e : exn) : result A := inl e.

Definition rbind {A B : Type} (r : result A) (f : A -> result B) : result B :=
  match r with
  | inl e => inl e
  | inr a => f a
  end.

(** A computation that calls external services: the calls made so far
    (oldest first) and either an exception or a value. *)
Definition M (E A : Type) : Type := list E * result A.

Definition ret {E A : Type} (a : A) : M E A := ([], inr a).
Definition emit {E : Type} (e : E) : M E unit := ([e], inr tt).
Definition lift {E A : Type} (r : result A) : M E A := ([], r).

Definition bind {E A B : Type} (m : M E A) (f : A -> M E B) : M E B :=
  match m with
  | (t, inl e) => (t, inl e)
  | (t, inr a) => (t ++ (f a).1, (f a).2)
  end.

Definition trace {E A : Type} (m : M E A) : list E := m.1.
Definition outcome {E A : Type} (m : M E A) : result A := m.2.

End Py.

Import Py.

Notation "x <- m ;; k" := (bind m (fun x => k))
  (at level 100, m at next level, right associativity).
Notation "m ;;; k" := (bind m (fun _ => k))
  (at level 100, right associativity).

(** ** Insertion-ordered dictionaries *)

Module OrderedDict.
Section OrderedDict.
Context {K V : Type} `{EqDecision K}.

(** The items of a dict in insertion order; keys are kept distinct by
    [setitem]. *)
Definition t : Type := list (K * V).

Definition empty : t := [].

(** [d[k] = v]: an existing key keeps its position and gets the new
    value, a new key goes to the end. *)
Fixpoint setitem (k : K) (v : V) (d : t) : t :=
  match d with
  | [] => [(k, v)]
  | (k', v') :: d' =>
      if decide (k' = k) then (k', v) :: d' else (k', v') :: setitem k v d'
  end.

Fixpoint getitem (k : K) (d : t) : option V :=
  match d with
  | [] => None
  | (k', v') :: d' => if decide (k' = k) then Some v' else getitem k d'
  end.

Definition keys (d : t) : list K := d.*1.

End OrderedDict.
Arguments t : clear implicits.
End OrderedDict.

(** ** Values, certificate dictionaries and responses *)

(** The values found in certificate dictionaries; a datetime is held as
    seconds since the epoch. *)
Inductive pyval (CourseKey : Type) : Type :=
| PNone
| PBool (b : bool)
| PStr (s : string)
| PDateTime (t : Z)
| PKey (k : CourseKey).

Arguments PNone {CourseKey}.
Arguments PBool {CourseKey} b.
Arguments PStr {CourseKey} s.
Arguments PDateTime {CourseKey} t.
Arguments PKey {CourseKey} k.

(** A dict with string keys, such as a certificate or a response object. *)
Abbreviation pydict CourseKey := (gmap string (pyval CourseKey)).

(** What the views import: course keys from [opaque_keys], the
    certificate and course-overview APIs, the user model and the account
    visibility settings.

    [from_string] is [None] where [CourseKey.from_string] raises
    [InvalidKeyError]; [get_certificate_for_user] is [None] where the API
    answers [None]; [get_from_ids_if_exists] gives the items of the dict
    returned by [CourseOverview.get_from_ids_if_exists] in iteration
    order, and as the items of a dict they have distinct keys;
    [User_objects_get] is [None] where
    [User.objects.select_related('profile').get] raises
    [User.DoesNotExist]. *)
Class Platform (CourseKey : Type) : Type := {
  key_eq_dec :: EqDecision CourseKey;
  from_string : string -> option CourseKey;
  key_str : CourseKey -> string;
  key_ltb : CourseKey -> CourseKey -> bool;
  datetime_str : Z -> string;
  get_certificate_for_user : string -> CourseKey -> option (pydict CourseKey);
  get_certificates_for_user : string -> list (pydict CourseKey);
  CourseOverview : Type;
  display_name_with_default : CourseOverview -> pyval CourseKey;
  display_org_with_default : CourseOverview -> pyval CourseKey;
  certificates_viewable_for_course : CourseOverview -> bool;
  get_from_ids_if_exists : list (pyval CourseKey) -> list (pyval CourseKey * CourseOverview);
  get_from_ids_if_exists_keys : forall ids, NoDup (get_from_ids_if_exists ids).*1;
  User : Type;
  User_objects_get : string -> option User;
  visible_fields : User -> list string
}.

#[global] Instance pyval_eq_dec {CourseKey : Type} `{EqDecision CourseKey} :
  EqDecision (pyval CourseKey).
Proof. solve_decision. Defined.

(** A response body is a JSON object or an array of objects. *)
Inductive body (CourseKey : Type) : Type :=
| JsonObject (d : pydict CourseKey)
| JsonArray (l : list (pydict CourseKey)).

Arguments JsonObject {CourseKey} d.
Arguments JsonArray {CourseKey} l.

Record Response (CourseKey : Type) : Type :=
  mkResponse { status : Z; data : body CourseKey }.

Arguments mkResponse {CourseKey} status data.
Arguments status {CourseKey} r.
Arguments data {CourseKey} r.

(** The requesting user, as far as the views look at it. *)
Record Request : Type := mkRequest { user_username : string; user_is_staff : bool }.

(** Calls that leave the view: the log and the data-access services. *)
Inductive event (CourseKey : Type) : Type :=
| LogWarning (fmt arg : string)
| CallGetCertificateForUser (username : string) (course_key : CourseKey)
| CallGetCertificatesForUser (username : string)
| QueryUser (username : string)
| QueryCourseOverviews (ids : list (pyval CourseKey)).

Arguments LogWarning {CourseKey} fmt arg.
Arguments CallGetCertificateForUser {CourseKey} username course_key.
Arguments CallGetCertificatesForUser {CourseKey} username.
Arguments QueryUser {CourseKey} username.
Arguments QueryCourseOverviews {CourseKey} ids.

Section Views.

Context {CourseKey : Type} `{Platform CourseKey}.

Abbreviation pyval := (pyval CourseKey).
Abbreviation event := (event CourseKey).
Abbreviation Response := (Response CourseKey).

(** Truth value of an object, as tested by [if]. *)
Definition truthy (v : pyval) : bool :=
  match v with
  | PNone => false
  | PBool b => b
  | PStr s => negb (String.eqb s EmptyString)
  | PDateTime _ => true
  | PKey _ => true
  end.

(** [a < b]; values of different kinds, and [None], do not compare. *)
Definition py_lt (a b : pyval) : result bool :=
  match a, b with
  | PBool x, PBool y => ok (negb x && y)
  | PStr x, PStr y => ok (String.ltb x y)
  | PDateTime x, PDateTime y => ok (x <? y)
  | PKey x, PKey y => ok (key_ltb x y)
  | _, _ => throw TypeError
  end.

(** [a] may stand before [b] in an ascending order. *)
Definition py_ascending (a b : pyval) : Prop :=
  py_lt a b = ok true \/ py_lt b a = ok false.

(** [six.text_type(v)]. *)
Definition text_type (v : pyval) : string :=
  match v with
  | PNone => "None"
  | PBool true => "True"
  | PBool false => "False"
  | PStr s => s
  | PDateTime t => datetime_str t
  | PKey k => key_str k
  end.

(** [d.get(k)], [d.get(k, dflt)] and [d[k]]. *)
Definition dict_get (d : gmap string pyval) (k : string) : pyval :=
  default PNone (d !! k).

Definition dict_get_default (d : gmap string pyval) (k : string) (dflt : pyval) : pyval :=
  default dflt (d !! k).

Definition dict_index (d : gmap string pyval) (k : string) : result pyval :=
  match d !! k with
  | Some v => ok v
  | None => throw KeyError
  end.

(** [Response(data)]: the status defaults to 200. *)
Definition Response_ok (d : body CourseKey) : Response := mkResponse 200 d.

(** ** CertificatesDetailView *)

Definition dquote : string := String (Ascii.ascii_of_nat 34) EmptyString.

Definition invalid_course_id_fmt : string :=
  String.append "Course ID string "
    (String.append dquote (String.append "%s" (String.append dquote " is not valid"))).

Definition CertificatesDetailView_get (request : Request) (username course_id : string)
  : M event Response :=
  match from_string course_id with
  | None =>
      emit (LogWarning invalid_course_id_fmt course_id) ;;;
      ret (mkResponse 404 (JsonObject {[ "error_code" := PStr "course_id_not_valid" ]}))
  | Some course_key =>
      emit (CallGetCertificateForUser username course_key) ;;;
      match get_certificate_for_user username course_key with
      | None =>
          ret (mkResponse 404 (JsonObject {[ "error_code" := PStr "no_certificate_for_user" ]}))
      | Some user_cert =>
          ret (Response_ok (JsonObject (
            <[ "username" := dict_get user_cert "username" ]> (
            <[ "course_id" := PStr (text_type (dict_get user_cert "course_key")) ]> (
            <[ "certificate_type" := dict_get user_cert "type" ]> (
            <[ "created_date" := dict_get user_cert "created" ]> (
            <[ "status" := dict_get user_cert "status" ]> (
            <[ "is_passing" := dict_get user_cert "is_passing" ]> (
            <[ "download_url" := dict_get user_cert "download_url" ]> (
            <[ "grade" := dict_get user_cert "grade" ]> ∅))))))))))
      end
  end.

(** ** list.sort(key=...) *)

(** Insert [x] behind every element that is not greater: before the
    first [y] with [x < y]. A comparison that raises ends the sort. *)
Fixpoint insert_by_key {A : Type} (x : pyval * A) (l : list (pyval * A))
  : result (list (pyval * A)) :=
  match l with
  | [] => ok [x]
  | y :: l' =>
      rbind (py_lt x.1 y.1) (fun lt =>
        if lt then ok (x :: y :: l')
        else rbind (insert_by_key x l') (fun r => ok (y :: r)))
  end.

Fixpoint sort_keyed {A : Type} (todo sorted : list (pyval * A))
  : result (list (pyval * A)) :=
  match todo with
  | [] => ok sorted
  | x :: rest => rbind (insert_by_key x sorted) (sort_keyed rest)
  end.

(** The keys are computed for all elements first, left to right. *)
Fixpoint keyed {A : Type} (key : A -> result pyval) (l : list A)
  : result (list (pyval * A)) :=
  match l with
  | [] => ok []
  | a :: l' =>
      rbind (key a) (fun k => rbind (keyed key l') (fun r => ok ((k, a) :: r)))
  end.

(** A stable sort by [key]. The outcome does not depend on the sorting
    algorithm: values of one kind are totally ordered and a stable sort
    is then unique, and values of different kinds (or [None]) raise in
    any algorithm, as ordering two or more elements compares each of
    them with another one. *)
Definition list_sort {A : Type} (key : A -> result pyval) (l : list A)
  : result (list A) :=
  rbind (keyed key l) (fun kl => rbind (sort_keyed kl []) (fun s => ok s.*2)).

(** ** CertificatesListView *)

Definition _viewable_by_requestor (request : Request) (username : string)
  : M event bool :=
  emit (QueryUser username) ;;;
  match User_objects_get username with
  | None => ret false
  | Some user =>
      let is_owner := String.eqb (user_username request) username in
      let is_staff := user_is_staff request in
      let certificates_viewable :=
        bool_decide ("course_certificates" ∈ visible_fields user) in
      ret (is_owner || is_staff || certificates_viewable)
  end.

(** First loop of [_get_certificates_for_user]: the passing
    certificates, by course key. *)
Fixpoint collect_passing (course_certificates : list (gmap string pyval))
    (passing_certificates : OrderedDict.t pyval (gmap string pyval))
  : result (OrderedDict.t pyval (gmap string pyval)) :=
  match course_certificates with
  | [] => ok passing_certificates
  | course_certificate :: rest =>
      if truthy (dict_get_default course_certificate "is_passing" (PBool false)) then
        rbind (dict_index course_certificate "course_key") (fun course_key =>
          collect_passing rest
            (OrderedDict.setitem course_key course_certificate passing_certificates))
      else collect_passing rest passing_certificates
  end.

(** Second loop: the certificates of viewable courses, with the course's
    display name and organization written into them. A course key is
    visited once (the overviews are a dict), so every certificate is
    looked up before it is written to. *)
Fixpoint collect_viewable (items : list (pyval * CourseOverview))
    (passing_certificates : OrderedDict.t pyval (gmap string pyval))
    (viewable_certificates : list (gmap string pyval))
  : result (list (gmap string pyval)) :=
  match items with
  | [] => ok viewable_certificates
  | (course_key, course_overview) :: rest =>
      if certificates_viewable_for_course course_overview then
        match OrderedDict.getitem course_key passing_certificates with
        | None => throw KeyError
        | Some course_certificate =>
            collect_viewable rest passing_certificates
              (viewable_certificates ++
               [ <[ "course_organization" := display_org_with_default course_overview ]> (
                 <[ "course_display_name" := display_name_with_default course_overview ]>
                   course_certificate) ])
        end
      else collect_viewable rest passing_certificates viewable_certificates
  end.

Definition _get_certificates_for_user (username : string)
  : M event (list (gmap string pyval)) :=
  emit (CallGetCertificatesForUser username) ;;;
  passing_certificates <-
    lift (collect_passing (get_certificates_for_user username) OrderedDict.empty) ;;
  emit (QueryCourseOverviews (OrderedDict.keys passing_certificates)) ;;;
  viewable_certificates <-
    lift (collect_viewable
            (get_from_ids_if_exists (OrderedDict.keys passing_certificates))
            passing_certificates []) ;;
  lift (list_sort (fun certificate => dict_index certificate "created")
          viewable_certificates).

(** One entry of the list response. *)
Definition list_entry (user_cert : gmap string pyval) : gmap string pyval :=
  <[ "username" := dict_get user_cert "username" ]> (
  <[ "course_id" := PStr (text_type (dict_get user_cert "course_key")) ]> (
  <[ "course_display_name" := dict_get user_cert "course_display_name" ]> (
  <[ "course_organization" := dict_get user_cert "course_organization" ]> (
  <[ "certificate_type" := dict_get user_cert "type" ]> (
  <[ "created_date" := dict_get user_cert "created" ]> (
  <[ "modified_date" := dict_get user_cert "modified" ]> (
  <[ "status" := dict_get user_cert "status" ]> (
  <[ "is_passing" := dict_get user_cert "is_passing" ]> (
  <[ "download_url" := dict_get user_cert "download_url" ]> (
  <[ "grade" := dict_get user_cert "grade" ]> ∅)))))))))).

Definition CertificatesListView_get (request : Request) (username : string)
  : M event Response :=
  viewable <- _viewable_by_requestor request username ;;
  if viewable then
    user_certs <- _get_certificates_for_user username ;;
    ret (Response_ok (JsonArray (list_entry <$> user_certs)))
  else ret (Response_ok (JsonArray [])).

(** The keys the docstring of [CertificatesListView] lists for an entry. *)
Definition documented_list_keys : list string :=
  [ "username"; "course_id"; "course_display_name"; "course_organization";
    "certificate_type"; "created_date"; "status"; "is_passing";
    "download_url"; "grade" ].

(** The keys the docstring of [CertificatesDetailView] lists. *)
Definition documented_detail_keys : list string :=
  [ "username"; "course_id"; "certificate_type"; "created_date"; "status";
    "is_passing"; "download_url"; "grade" ].

(** *** Vocabulary for the properties of the list view *)

(** The test of the first loop: [course_certificate.get('is_passing', False)]. *)
Definition is_passing (course_certificate : gmap string pyval) : bool :=
  truthy (dict_get_default course_certificate "is_passing" (PBool false)).

(** A certificate after the two assignments of the second loop. *)
Definition with_overview (course_overview : CourseOverview)
    (course_certificate : gmap string pyval) : gmap string pyval :=
  <[ "course_organization" := display_org_with_default course_overview ]> (
  <[ "course_display_name" := display_name_with_default course_overview ]>
    course_certificate).

(** The last passing certificate for [course_key] in a list of
    certificates. *)
Definition last_passing (course_key : pyval) (course_certificates : list (gmap string pyval))
  : option (gmap string pyval) :=
  last (filter (fun c => is_passing c = true /\ c !! "course_key" = Some course_key)
          course_certificates).

End Views.

(** ** The permission classes of CertificatesListView *)

(** What each permission class answers for a request to the view; the
    classes are those of [rest_framework] and
    [edx_rest_framework_extensions]. *)
Record PermissionChecks : Type := mkChecks {
  IsAuthenticated : bool;
  NotJwtRestrictedApplication : bool;
  JwtRestrictedApplication : bool;
  JwtHasScope : bool;
  JwtHasUserFilterForRequestedUser : bool
}.

(** [permission_classes] of the list view: the composition with [&] and
    [|] answers the conjunction and disjunction of the answers. *)
Definition CertificatesListView_permission_classes (checks : PermissionChecks) : bool :=
  IsAuthenticated checks &&
  (NotJwtRestrictedApplication checks ||
   (JwtRestrictedApplication checks && JwtHasScope checks &&
    JwtHasUserFilterForRequestedUser checks)).


(** ** The proctored-exam permission *)

Module Rules.

(** The context dictionary handed to the permission check. *)
Record ExamContext : Type :=
  mkExam { course_id : string; backend : option string; is_proctored : option bool }.

(** [CourseEnrollment]: the mode a user is enrolled under, by user and
    course id. *)
Definition enroll (user course mode : string) (enrollments : gmap (string * string) string)
  : gmap (string * string) string :=
  <[ (user, course) := mode ]> enrollments.

Definition unenroll (user course : string) (enrollments : gmap (string * string) string)
  : gmap (string * string) string :=
  delete (user, course) enrollments.

Definition perm_name : string := "edx_proctoring.can_take_proctored_exam".

(** Modelled from the spec: whether the backend named in the context is
    configured with [allow_honor_mode] ([settings.PROCTORING_BACKENDS] maps
    a backend name to its flags). The rule lives in [courseware.rules],
    which is not among the sources; only its tests are. *)
Definition allow_honor_mode (backends : gmap string (gmap string bool)) (exam : ExamContext)
  : bool :=
  match backend exam with
  | None => false
  | Some name =>
      match backends !! name with
      | None => false
      | Some config => default false (config !! "allow_honor_mode")
      end
  end.

(** Modelled from the spec: the rule [can_take_proctored_exam] of
    [courseware.rules], absent from the sources. No enrollment is denied;
    verified, masters and professional are allowed; honor is allowed when
    the named backend allows it; any other mode is denied. *)
Definition can_take_proctored_exam (backends : gmap string (gmap string bool))
    (enrollments : gmap (string * string) string) (user : string) (exam : ExamContext)
  : bool :=
  match enrollments !! (user, course_id exam) with
  | None => false
  | Some mode =>
      if bool_decide (mode ∈ ["verified"; "masters"; "professional"]) then true
      else if String.eqb mode "honor" then allow_honor_mode backends exam
      else false
  end.

(** Modelled from the spec: [user.has_perm(name, context)], the generic
    entry point, dispatching on the permission name. *)
Definition has_perm (backends : gmap string (gmap string bool))
    (enrollments : gmap (string * string) string) (user perm : string) (exam : ExamContext)
  : bool :=
  if String.eqb perm perm_name then can_take_proctored_exam backends enrollments user exam
  else false.

(** *** test_rules.py *)

Definition test_user : string := "robot".
Definition test_course_id : string := "course-v1:MITx+000+Perm_course".

(** [setUp] leaves the user without an enrollment in the course. *)
Definition setUp (enrollments : gmap (string * string) string)
  : gmap (string * string) string :=
  unenroll test_user test_course_id enrollments.

Definition test_proctoring_perm_data : list (option string * bool) :=
  [ (None, false); (Some "audit", false); (Some "verified", true);
    (Some "masters", true); (Some "professional", true);
    (Some "no-id-professional", false) ].

(** The assertion of [test_proctoring_perm] for one data row. *)
Definition test_proctoring_perm (backends : gmap string (gmap string bool))
    (enrollments : gmap (string * string) string) (mode : option string)
    (should_have_perm : bool) : bool :=
  let enrollments :=
    match mode with
    | Some m => enroll test_user test_course_id m (setUp enrollments)
    | None => setUp enrollments
    end in
  Bool.eqb (has_perm backends enrollments test_user perm_name
              (mkExam test_course_id None None))
           should_have_perm.

Definition honor_backends : gmap string (gmap string bool) :=
  {[ "mock_proctoring_allow_honor_mode" := {[ "allow_honor_mode" := true ]} ]}.

(** The assertion of [test_proctoring_perm_with_honor_mode_permission]. *)
Definition test_proctoring_perm_with_honor_mode_permission
    (enrollments : gmap (string * string) string) : bool :=
  has_perm honor_backends (enroll test_user test_course_id "honor" (setUp enrollments))
    test_user perm_name
    (mkExam test_course_id (Some "mock_proctoring_allow_honor_mode") (Some true)).

End Rules.

(** ** A small platform to run the views on *)

Module Demo.

(** Course keys are their own rendering; a string parses as a key when
    it has the [course-v1:] prefix. *)
Definition parse (s : string) : option string :=
  if String.prefix "course-v1:" s then Some s else None.

Definition certificate (username course : string) (created modified : Z)
    (passing : bool) (grade : string) : pydict string :=
  list_to_map
    [ ("username", PStr username); ("course_key", PKey course);
      ("type", PStr "verified"); ("status", PStr (if passing then "downloadable" else "notpassing"));
      ("grade", PStr grade); ("created", PDateTime created);
      ("modified", PDateTime modified); ("is_passing", PBool passing);
      ("download_url", PStr "http://www.example.com/cert.pdf") ].

Definition algebra : string := "course-v1:edX+Algebra+2015".
Definition biology : string := "course-v1:edX+Biology+2015".
Definition chemistry : string := "course-v1:edX+Chemistry+2015".
Definition drawing : string := "course-v1:edX+Drawing+2015".

(** bob has two records for algebra, a failed biology course, and
    passed chemistry and drawing; drawing certificates are not viewable. *)
Definition certificates (username : string) : list (pydict string) :=
  if String.eqb username "bob" then
    [ certificate "bob" chemistry 500 510 true "0.98";
      certificate "bob" algebra 100 110 true "0.70";
      certificate "bob" biology 200 210 false "0.10";
      certificate "bob" algebra 300 310 true "0.90";
      certificate "bob" drawing 400 410 true "0.80" ]
  else [].

Definition certificate_for (username course : string) : option (pydict string) :=
  last (filter (fun c => c !! "course_key" = Some (PKey course)) (certificates username)).

Record overview : Type :=
  mkOverview { ov_id : string; ov_name : string; ov_org : string; ov_viewable : bool }.

Definition overviews : list overview :=
  [ mkOverview algebra "Algebra" "edX" true;
    mkOverview biology "Biology" "edX" true;
    mkOverview chemistry "Chemistry" "edX" true;
    mkOverview drawing "Drawing" "edX" false ].

Definition overviews_for (ids : list (pyval string)) : list (pyval string * overview) :=
  (fun o => (PKey (ov_id o), o)) <$>
    filter (fun o => PKey (ov_id o) ∈ ids) overviews.

(** A user is the list of the account fields it makes visible. *)
Definition users (username : string) : option (list string) :=
  if String.eqb username "bob" then Some ["username"; "bio"]
  else if String.eqb username "carol" then Some ["username"; "course_certificates"]
  else None.

#[global, refine] Instance platform : Platform string := {|
  from_string := parse;
  key_str := fun k => k;
  key_ltb := String.ltb;
  datetime_str := fun _ => "2015-12-03 13:14:28+00:00";
  get_certificate_for_user := certificate_for;
  get_certificates_for_user := certificates;
  CourseOverview := overview;
  display_name_with_default := fun o => PStr (ov_name o);
  display_org_with_default := fun o => PStr (ov_org o);
  certificates_viewable_for_course := ov_viewable;
  get_from_ids_if_exists := overviews_for;
  User := list string;
  User_objects_get := users;
  visible_fields := fun u => u
|}.
Proof.
  intros ids. unfold overviews_for. rewrite <- list_fmap_compose.
  eapply sublist_NoDup; [| apply fmap_sublist, sublist_filter].
  apply (bool_decide_unpack _). by vm_compute.
Defined.

Definition bob : Request := mkRequest "bob" false.
Definition mallory : Request := mkRequest "mallory" false.

(** What bob gets when listing his own certificates: the second algebra
    record and chemistry, oldest first. *)
Definition bob_list_trace : list (event string) :=
  [ QueryUser "bob"; CallGetCertificatesForUser "bob";
    QueryCourseOverviews [PKey chemistry; PKey algebra; PKey drawing] ].

Definition bob_list_response : Response string :=
  mkResponse 200 (JsonArray
    [ list_entry (with_overview (mkOverview algebra "Algebra" "edX" true)
                    (certificate "bob" algebra 300 310 true "0.90"));
      list_entry (with_overview (mkOverview chemistry "Chemistry" "edX" true)
                    (certificate "bob" chemistry 500 510 true "0.98")) ]).

(** The body of bob's algebra certificate as the detail view returns it. *)
Definition bob_algebra_body : pydict string :=
  list_to_map
    [ ("username", PStr "bob"); ("course_id", PStr algebra);
      ("certificate_type", PStr "verified"); ("created_date", PDateTime 300);
      ("status", PStr "downloadable"); ("is_passing", PBool true);
      ("download_url", PStr "http://www.example.com/cert.pdf");
      ("grade", PStr "0.90") ].

End Demo.

(** ** Platforms with ill-formed or tied certificate data *)

Module Cases.

Import Demo.

(** The small platform with other certificates and another overview
    lookup. *)
Definition platform_of (certs : string -> list (pydict string))
    (lookup : list (pyval string) -> list (pyval string * overview))
    (lookup_keys : forall ids, NoDup (lookup ids).*1) : Platform string := {|
  from_string := parse;
  key_str := fun k => k;
  key_ltb := String.ltb;
  datetime_str := fun _ => "2015-12-03 13:14:28+00:00";
  get_certificate_for_user := fun username course =>
    last (filter (fun c => c !! "course_key" = Some (PKey course)) (certs username));
  get_certificates_for_user := certs;
  CourseOverview := overview;
  display_name_with_default := fun o => PStr (ov_name o);
  display_org_with_default := fun o => PStr (ov_org o);
  certificates_viewable_for_course := ov_viewable;
  get_from_ids_if_exists := lookup;
  get_from_ids_if_exists_keys := lookup_keys;
  User := list string;
  User_objects_get := users;
  visible_fields := fun u => u
|}.

(** A passing certificate without a course key, after a well-formed one. *)
Definition no_key_certificates (username : string) : list (pydict string) :=
  [ certificate username chemistry 500 510 true "0.98";
    delete "course_key" (certificate username algebra 100 110 true "0.70") ].

Definition no_key : Platform string :=
  platform_of no_key_certificates overviews_for
    (get_from_ids_if_exists_keys (Platform := platform)).

(** An overview lookup that answers with a course it was not asked for. *)
Definition stray_lookup (ids : list (pyval string)) : list (pyval string * overview) :=
  [ (PKey drawing, mkOverview drawing "Drawing" "edX" true) ].

Definition stray_certificates (username : string) : list (pydict string) :=
  [ certificate username chemistry 500 510 true "0.98" ].

Definition stray : Platform string :=
  platform_of stray_certificates stray_lookup (fun _ => NoDup_singleton (PKey drawing)).

(** A viewable certificate without a creation date. *)
Definition no_created_certificates (username : string) : list (pydict string) :=
  [ delete "created" (certificate username algebra 100 110 true "0.70") ].

Definition no_created : Platform string :=
  platform_of no_created_certificates overviews_for
    (get_from_ids_if_exists_keys (Platform := platform)).

(** Two viewable certificates, one of them created at [None]. *)
Definition none_created_certificates (username : string) : list (pydict string) :=
  [ <[ "created" := PNone ]> (certificate username algebra 100 110 true "0.70");
    certificate username chemistry 500 510 true "0.98" ].

Definition none_created : Platform string :=
  platform_of none_created_certificates overviews_for
    (get_from_ids_if_exists_keys (Platform := platform)).

(** Chemistry and algebra created at the same time, biology earlier;
    the overviews come in the order algebra, biology, chemistry. *)
Definition tied_certificates (username : string) : list (pydict string) :=
  [ certificate username chemistry 300 310 true "0.98";
    certificate username algebra 300 320 true "0.70";
    certificate username biology 100 110 true "0.60" ].

Definition tied : Platform string :=
  platform_of tied_certificates overviews_for
    (get_from_ids_if_exists_keys (Platform := platform)).

(** A single certificate, created at [None]. *)
Definition lone_certificates (username : string) : list (pydict string) :=
  [ <[ "created" := PNone ]> (certificate username algebra 100 110 true "0.70") ].

Definition lone : Platform string :=
  platform_of lone_certificates overviews_for
    (get_from_ids_if_exists_keys (Platform := platform)).

(** A certificate record that holds nothing but a grade. *)
Definition bare_certificates (username : string) : list (pydict string) :=
  [ {[ "grade" := PStr "0.50" ]} ].

Definition bare : Platform string := {|
  from_string := parse;
  key_str := fun k => k;
  key_ltb := String.ltb;
  datetime_str := fun _ => "2015-12-03 13:14:28+00:00";
  get_certificate_for_user := fun _ _ => Some {[ "grade" := PStr "0.50" ]};
  get_certificates_for_user := bare_certificates;
  CourseOverview := overview;
  display_name_with_default := fun o => PStr (ov_name o);
  display_org_with_default := fun o => PStr (ov_org o);
  certificates_viewable_for_course := ov_viewable;
  get_from_ids_if_exists := overviews_for;
  get_from_ids_if_exists_keys := get_from_ids_if_exists_keys (Platform := platform);
  User := list string;
  User_objects_get := users;
  visible_fields := fun u => u
|}.

Definition staff : Request := mkRequest "admin" true.

End Cases.


(** * Properties *)

(** ** Exceptions *)

Lemma rbind_inr {A B : Type} (r : result A) (f : A -> result B) b :
  rbind r f = inr b -> exists a, r = inr a /\ f a = inr b.
Proof. destruct r as [e | a]; simpl; [discriminate | eauto]. Qed.

(** ** Insertion-ordered dictionaries *)

Section OrderedDictFacts.

Context {K V : Type} `{EqDecision K}.
Implicit Types (d : OrderedDict.t K V) (k : K) (v : V).

Lemma getitem_setitem k k' v d :
  OrderedDict.getitem k' (OrderedDict.setitem k v d) =
  if decide (k = k') then Some v else OrderedDict.getitem k' d.
Proof.
  induction d as [| [k0 v0] d IH]; simpl.
  - repeat case_decide; congruence.
  - destruct (decide (k0 = k)) as [-> | Hk0]; simpl.
    + destruct (decide (k = k')); reflexivity.
    + rewrite IH. repeat case_decide; congruence.
Qed.

Lemma getitem_is_Some k d : k ∈ OrderedDict.keys d -> is_Some (OrderedDict.getitem k d).
Proof.
  unfold OrderedDict.keys.
  induction d as [| [k0 v0] d IH]; simpl; intros Hin.
  - by apply elem_of_nil in Hin.
  - destruct (decide (k0 = k)) as [-> | Hne]; [eauto |].
    apply IH. apply elem_of_cons in Hin as [-> | Hin]; [done | exact Hin].
Qed.

Lemma getitem_keys k v d : OrderedDict.getitem k d = Some v -> k ∈ OrderedDict.keys d.
Proof.
  unfold OrderedDict.keys.
  induction d as [| [k0 v0] d IH]; simpl; [discriminate |].
  destruct (decide (k0 = k)) as [-> | Hne]; [left | right; auto].
Qed.

Lemma keys_setitem_old k v d :
  k ∈ OrderedDict.keys d ->
  OrderedDict.keys (OrderedDict.setitem k v d) = OrderedDict.keys d.
Proof.
  unfold OrderedDict.keys.
  induction d as [| [k0 v0] d IH]; simpl; intros Hin.
  - by apply elem_of_nil in Hin.
  - destruct (decide (k0 = k)) as [-> | Hk0]; simpl; [reflexivity |].
    f_equal. apply IH. apply elem_of_cons in Hin as [-> | Hin]; [done | exact Hin].
Qed.

Lemma keys_setitem_new k v d :
  k ∉ OrderedDict.keys d ->
  OrderedDict.keys (OrderedDict.setitem k v d) = OrderedDict.keys d ++ [k].
Proof.
  unfold OrderedDict.keys.
  induction d as [| [k0 v0] d IH]; simpl; intros Hin; [reflexivity |].
  apply not_elem_of_cons in Hin as [Hk Hin].
  destruct (decide (k0 = k)) as [-> | Hk0]; simpl; [done |].
  f_equal. apply IH. exact Hin.
Qed.

(** Assignment keeps the keys of a dict distinct. *)
Lemma keys_setitem_NoDup k v d :
  NoDup (OrderedDict.keys d) -> NoDup (OrderedDict.keys (OrderedDict.setitem k v d)).
Proof.
  intros Hd. destruct (decide (k ∈ OrderedDict.keys d)) as [Hin | Hin].
  - rewrite keys_setitem_old; assumption.
  - rewrite keys_setitem_new by assumption.
    apply NoDup_app. split_and!; [exact Hd | | apply NoDup_singleton].
    intros x Hx ->%list_elem_of_singleton. contradiction.
Qed.

End OrderedDictFacts.

(** ** Sorting by key *)

Lemma Sorted_weaken {T : Type} (R1 R2 : relation T) (l : list T) :
  (forall x y, R1 x y -> R2 x y) -> Sorted R1 l -> Sorted R2 l.
Proof.
  intros HR. induction 1 as [| x l Hs IH Hhd]; constructor; [exact IH |].
  destruct Hhd; constructor; auto.
Qed.

Section SortFacts.

Context {CourseKey : Type} `{Platform CourseKey} {A : Type}.
Implicit Types (x y : pyval CourseKey * A) (l r : list (pyval CourseKey * A)).

(** Two keyed elements in ascending order of their keys. *)
Local Abbreviation keys_ascending := (fun x y => py_ascending x.1 y.1).

Lemma insert_by_key_perm x l r : insert_by_key x l = inr r -> r ≡ₚ x :: l.
Proof.
  revert r. induction l as [| y l IH]; simpl; intros r.
  - intros [= <-]. reflexivity.
  - intros (lt & Hlt & Hr)%rbind_inr. destruct lt.
    + injection Hr as <-. reflexivity.
    + apply rbind_inr in Hr as (r' & Hr' & [= <-]).
      rewrite (IH _ Hr'). apply Permutation_swap.
Qed.

Lemma insert_by_key_HdRel a x l r :
  insert_by_key x l = inr r ->
  py_ascending a.1 x.1 -> HdRel keys_ascending a l -> HdRel keys_ascending a r.
Proof.
  destruct l as [| y l]; simpl.
  - intros [= <-] Hax _. constructor. exact Hax.
  - intros (lt & Hlt & Hr)%rbind_inr Hax Hay. destruct lt.
    + injection Hr as <-. constructor. exact Hax.
    + apply rbind_inr in Hr as (r' & Hr' & [= <-]).
      constructor. by inversion Hay.
Qed.

Lemma insert_by_key_Sorted x l r :
  insert_by_key x l = inr r -> Sorted keys_ascending l -> Sorted keys_ascending r.
Proof.
  revert r. induction l as [| y l IH]; simpl; intros r.
  - intros [= <-] _. repeat constructor.
  - intros (lt & Hlt & Hr)%rbind_inr Hs. destruct lt.
    + injection Hr as <-. constructor; [exact Hs |]. constructor. left. exact Hlt.
    + apply rbind_inr in Hr as (r' & Hr' & [= <-]).
      apply Sorted_inv in Hs as [Hs Hhd].
      constructor; [by apply IH |].
      eapply insert_by_key_HdRel; [exact Hr' | right; exact Hlt | exact Hhd].
Qed.

Lemma sort_keyed_spec todo sorted r :
  sort_keyed todo sorted = inr r ->
  Sorted keys_ascending sorted ->
  Sorted keys_ascending r /\ r ≡ₚ todo ++ sorted.
Proof.
  revert sorted r. induction todo as [| x todo IH]; simpl; intros sorted r.
  - intros [= <-] Hs. auto.
  - intros (s' & Hins & Hr)%rbind_inr Hs.
    destruct (IH _ _ Hr (insert_by_key_Sorted _ _ _ Hins Hs)) as [Hsorted Hperm].
    split; [exact Hsorted |].
    rewrite Hperm, (insert_by_key_perm _ _ _ Hins).
    symmetry. apply Permutation_middle.
Qed.

Lemma keyed_spec (key : A -> result (pyval CourseKey)) (l : list A) kl :
  keyed key l = inr kl ->
  kl.*2 = l /\ Forall (fun p => key p.2 = inr p.1) kl.
Proof.
  revert kl. induction l as [| a l IH]; simpl; intros kl.
  - intros [= <-]. split; [reflexivity | constructor].
  - intros (k & Hk & Hr)%rbind_inr.
    apply rbind_inr in Hr as (r & Hr & [= <-]).
    destruct (IH _ Hr) as [<- Hall]. split; [reflexivity |].
    constructor; [exact Hk | exact Hall].
Qed.

Lemma Sorted_Forall (R : relation (pyval CourseKey * A)) (P : pyval CourseKey * A -> Prop) l :
  Sorted R l -> Forall P l -> Sorted (fun x y => R x y /\ P x /\ P y) l.
Proof.
  induction 1 as [| x l Hs IH Hhd]; intros Hall; [constructor |].
  apply Forall_cons in Hall as [Hx Hall].
  constructor; [auto |].
  destruct Hhd as [| y l Hxy]; constructor.
  apply Forall_cons in Hall as [Hy _]. auto.
Qed.

(** [list.sort(key=...)] returns a rearrangement of the list in which
    the key of an element is never greater than the key of the next. *)
Lemma list_sort_spec (key : A -> result (pyval CourseKey)) (l s : list A) :
  list_sort key l = inr s ->
  s ≡ₚ l /\
  Sorted (fun a b => exists ka kb,
            key a = inr ka /\ key b = inr kb /\ py_ascending ka kb) s.
Proof.
  unfold list_sort.
  intros (kl & Hkl & Hs)%rbind_inr.
  apply rbind_inr in Hs as (r & Hr & [= <-]).
  destruct (keyed_spec _ _ _ Hkl) as [<- Hkeys].
  destruct (sort_keyed_spec _ _ _ Hr) as [Hsorted Hperm]; [constructor |].
  rewrite app_nil_r in Hperm. split.
  - by rewrite Hperm.
  - assert (Hkeys' : Forall (fun p => key p.2 = inr p.1) r) by by rewrite Hperm.
    eapply Sorted_fmap; [| exact (Sorted_Forall _ _ _ Hsorted Hkeys')].
    intros x y (Hxy & Hx & Hy). simpl in *. eauto.
Qed.

End SortFacts.

(** ** The loops of the list view *)

Section LoopFacts.

Context {CourseKey : Type} `{Platform CourseKey}.
Implicit Types (c : pydict CourseKey) (k : pyval CourseKey).

Lemma last_passing_cons k c l :
  last_passing k (c :: l) =
  match last_passing k l with
  | Some c' => Some c'
  | None => if decide (is_passing c = true /\ c !! "course_key" = Some k) then Some c else None
  end.
Proof.
  unfold last_passing. rewrite filter_cons. case_decide.
  - apply last_cons.
  - by destruct (last _).
Qed.

(** The certificate found by [last_passing] is in the list, passes and
    carries the course key. *)
Lemma last_passing_Some k c l :
  last_passing k l = Some c ->
  c ∈ l /\ is_passing c = true /\ c !! "course_key" = Some k.
Proof.
  unfold last_passing. intros Hlast%last_Some_elem_of.
  apply list_elem_of_filter in Hlast. tauto.
Qed.

(** After the first loop the dict holds, for each course key, the last
    passing certificate of the list, or what it held before. *)
Lemma collect_passing_getitem l acc d k :
  collect_passing l acc = inr d ->
  OrderedDict.getitem k d =
  match last_passing k l with
  | Some c => Some c
  | None => OrderedDict.getitem k acc
  end.
Proof.
  revert acc. induction l as [| c l IH]; simpl; intros acc.
  - intros [= <-]. reflexivity.
  - rewrite last_passing_cons. fold (is_passing c).
    destruct (is_passing c) eqn:Hpass.
    + intros (kc & Hkc & Hd)%rbind_inr.
      rewrite (IH _ Hd). destruct (last_passing k l); [reflexivity |].
      rewrite getitem_setitem.
      unfold dict_index in Hkc. destruct (c !! "course_key") as [kc' |] eqn:Hc; [| discriminate].
      injection Hkc as ->.
      destruct (decide (kc = k)) as [-> | Hne].
      * rewrite decide_True; auto.
      * rewrite decide_False; [reflexivity |]. intros [_ [= ?]]. contradiction.
    + intros Hd. rewrite (IH _ Hd). destruct (last_passing k l); [reflexivity |].
      rewrite decide_False; [reflexivity |]. intros [? _]. discriminate.
Qed.

Lemma collect_passing_empty l d k :
  collect_passing l OrderedDict.empty = inr d ->
  OrderedDict.getitem k d = last_passing k l.
Proof.
  intros Hd. rewrite (collect_passing_getitem _ _ _ _ Hd).
  by destruct (last_passing k l).
Qed.

(** The course keys handed to the overview lookup are distinct. *)
Lemma collect_passing_keys_NoDup l acc d :
  collect_passing l acc = inr d ->
  NoDup (OrderedDict.keys acc) -> NoDup (OrderedDict.keys d).
Proof.
  revert acc. induction l as [| c l IH]; simpl; intros acc.
  - by intros [= <-].
  - destruct (truthy _); [| apply IH].
    intros (kc & _ & Hd)%rbind_inr Hacc.
    eapply IH; [exact Hd |]. by apply keys_setitem_NoDup.
Qed.

(** The second loop appends, for each item whose course is viewable and
    in item order, the certificate stored under the item's key with the
    course names written into it. *)
Lemma collect_viewable_spec items d acc r :
  collect_viewable items d acc = inr r ->
  exists added,
    r = acc ++ added /\
    Forall2 (fun c p => exists c0, OrderedDict.getitem p.1 d = Some c0 /\
                                   c = with_overview p.2 c0)
      added (filter (fun p => certificates_viewable_for_course p.2 = true) items).
Proof.
  revert acc. induction items as [| [k ov] items IH]; simpl; intros acc.
  - intros [= <-]. exists []. rewrite app_nil_r. split; [reflexivity | constructor].
  - rewrite filter_cons. simpl.
    destruct (certificates_viewable_for_course ov) eqn:Hview.
    + destruct (OrderedDict.getitem k d) as [c0 |] eqn:Hget; [| discriminate].
      intros (added & -> & Hall)%IH.
      exists (with_overview ov c0 :: added). split.
      * by rewrite <- app_assoc.
      * rewrite decide_True by reflexivity. constructor; [| exact Hall].
        exists c0. auto.
    + intros (added & -> & Hall)%IH. exists added. split; [reflexivity |].
      rewrite decide_False; [exact Hall | discriminate].
Qed.

(** Writing the course names leaves the other fields as they were. *)
Lemma with_overview_lookup ov c (field : string) :
  field <> "course_organization" -> field <> "course_display_name" ->
  with_overview ov c !! field = c !! field.
Proof.
  intros Horg Hname. unfold with_overview.
  rewrite lookup_insert_ne by congruence.
  rewrite lookup_insert_ne by congruence. reflexivity.
Qed.

Lemma truthy_get_default c (field : string) :
  truthy (dict_get c field) = truthy (dict_get_default c field (PBool false)).
Proof. unfold dict_get, dict_get_default. by destruct (c !! field). Qed.

End LoopFacts.

(** ** The list view *)

Section ListViewFacts.

Context {CourseKey : Type} `{Platform CourseKey}.
Implicit Types (c : pydict CourseKey) (k : pyval CourseKey).

(** Reads a field of a dict built from assignments of literal keys. *)
Ltac lookup_literal :=
  repeat (rewrite lookup_insert_ne by discriminate);
  first [ rewrite lookup_insert_eq | rewrite lookup_empty ]; reflexivity.

Lemma get_certificates_spec (username : string) t certs :
  _get_certificates_for_user username = (t, inr certs) ->
  exists ids viewable,
    t = [CallGetCertificatesForUser username; QueryCourseOverviews ids] /\
    certs ≡ₚ viewable /\
    Sorted (fun a b => py_ascending (dict_get a "created") (dict_get b "created")) certs /\
    Forall2 (fun c p => exists c0,
                 last_passing p.1 (get_certificates_for_user username) = Some c0 /\
                 c = with_overview p.2 c0)
      viewable
      (filter (fun p => certificates_viewable_for_course p.2 = true)
         (get_from_ids_if_exists ids)).
Proof.
  unfold _get_certificates_for_user.
  destruct (collect_passing _ _) as [e | d] eqn:Hd; simpl; [discriminate |].
  destruct (collect_viewable _ _ _) as [e | v] eqn:Hv; simpl; [discriminate |].
  intros [= <- Hsort].
  apply list_sort_spec in Hsort as [Hperm Hsorted].
  apply collect_viewable_spec in Hv as (added & -> & Hadded). simpl in *.
  exists (OrderedDict.keys d), added. split_and!; [reflexivity | exact Hperm | |].
  - eapply Sorted_weaken; [| exact Hsorted].
    intros a b (ka & kb & Ha & Hb & Hab). unfold dict_index in Ha, Hb. unfold dict_get.
    destruct (a !! "created"); [| discriminate].
    destruct (b !! "created"); [| discriminate].
    injection Ha as ->. injection Hb as ->. exact Hab.
  - eapply Forall2_impl; [exact Hadded |].
    intros c p (c0 & Hget & ->). exists c0. split; [| reflexivity].
    by rewrite <- (collect_passing_empty _ _ _ Hd).
Qed.

Lemma viewable_by_requestor_returns (request : Request) (username : string) :
  exists b, _viewable_by_requestor request username = ([QueryUser username], inr b).
Proof. unfold _viewable_by_requestor. destruct (User_objects_get username); eauto. Qed.

(** A request that may not see the certificates gets the empty list,
    and the certificates are not fetched. *)
Lemma list_view_not_viewable (request : Request) (username : string) :
  outcome (_viewable_by_requestor request username) = inr false ->
  CertificatesListView_get request username =
  ([QueryUser username], inr (Response_ok (JsonArray []))).
Proof.
  destruct (viewable_by_requestor_returns request username) as [b Hb].
  unfold CertificatesListView_get. rewrite Hb. simpl. by intros [= ->].
Qed.

(** A response of the list view is built from the certificates that
    [_get_certificates_for_user] returned, or is empty. *)
Lemma list_view_inr (request : Request) (username : string) t resp :
  CertificatesListView_get request username = (t, inr resp) ->
  exists user_certs,
    resp = Response_ok (JsonArray (list_entry <$> user_certs)) /\
    ((user_certs = [] /\ t = [QueryUser username]) \/
     exists t', _get_certificates_for_user username = (t', inr user_certs) /\
                t = QueryUser username :: t').
Proof.
  destruct (viewable_by_requestor_returns request username) as [b Hb].
  unfold CertificatesListView_get. rewrite Hb.
  destruct (_get_certificates_for_user username) as [t' [e | certs]] eqn:Hcerts;
    destruct b; simpl; try discriminate.
  - intros [= <- <-]. exists []. auto.
  - rewrite app_nil_r. intros [= <- <-]. exists certs. split; [reflexivity |].
    right. eauto.
  - intros [= <- <-]. exists []. auto.
Qed.

Lemma list_entry_is_passing c :
  dict_get (list_entry c) "is_passing" = dict_get c "is_passing".
Proof. unfold list_entry, dict_get at 1. by lookup_literal. Qed.

Lemma list_entry_created_date c :
  dict_get (list_entry c) "created_date" = dict_get c "created".
Proof. unfold list_entry, dict_get at 1. by lookup_literal. Qed.

Lemma list_entry_size c : size (list_entry c) = 11%nat.
Proof.
  change (list_entry c) with
    (list_to_map (M := pydict CourseKey)
       [ ("username", dict_get c "username");
         ("course_id", PStr (text_type (dict_get c "course_key")));
         ("course_display_name", dict_get c "course_display_name");
         ("course_organization", dict_get c "course_organization");
         ("certificate_type", dict_get c "type");
         ("created_date", dict_get c "created");
         ("modified_date", dict_get c "modified");
         ("status", dict_get c "status");
         ("is_passing", dict_get c "is_passing");
         ("download_url", dict_get c "download_url");
         ("grade", dict_get c "grade") ]).
  rewrite map_size_list_to_map; [reflexivity |].
  simpl. apply (bool_decide_unpack _). by vm_compute.
Qed.

Lemma list_entry_dom c :
  dom (list_entry c) = {[ "modified_date" ]} ∪ list_to_set documented_list_keys.
Proof.
  unfold list_entry, documented_list_keys.
  rewrite !dom_insert_L, dom_empty_L. simpl. set_solver.
Qed.

Lemma Sorted_datetimes (ts : list Z) :
  Sorted py_ascending (PDateTime <$> ts) -> StronglySorted Z.le ts.
Proof.
  intros Hs. apply Sorted_StronglySorted; [intros x y z; apply Z.le_trans |].
  induction ts as [| a ts IH]; [constructor |].
  apply Sorted_inv in Hs as [Hs Hhd]. constructor; [auto |].
  destruct ts as [| b ts]; constructor.
  apply HdRel_inv in Hhd. destruct Hhd as [Hlt | Hlt]; simpl in Hlt; injection Hlt as Hlt.
  - apply Z.ltb_lt in Hlt. lia.
  - apply Z.ltb_ge in Hlt. exact Hlt.
Qed.

(** A certificate that went through both loops: it is the last passing
    one for its course key, and its course has an overview among those
    fetched for [ids] whose certificates are viewable. *)
Lemma viewable_certificate (username : string) ids viewable c :
  Forall2 (fun c p => exists c0,
               last_passing p.1 (get_certificates_for_user username) = Some c0 /\
               c = with_overview p.2 c0)
    viewable
    (filter (fun p => certificates_viewable_for_course p.2 = true)
       (get_from_ids_if_exists ids)) ->
  c ∈ viewable ->
  exists c0 course_overview,
    last_passing (dict_get c "course_key") (get_certificates_for_user username) = Some c0 /\
    c = with_overview course_overview c0 /\
    (dict_get c "course_key", course_overview) ∈ get_from_ids_if_exists ids /\
    certificates_viewable_for_course course_overview = true.
Proof.
  intros Hall Hc.
  apply list_elem_of_lookup in Hc as [i Hi].
  destruct (Forall2_lookup_l _ _ _ _ _ Hall Hi) as ([k ov] & Hp & c0 & Hlast & ->).
  apply list_elem_of_lookup_2, list_elem_of_filter in Hp as [Hview Hin]. simpl in *.
  destruct (last_passing_Some _ _ _ Hlast) as (_ & _ & Hkey).
  assert (Hk : dict_get (with_overview ov c0) "course_key" = k).
  { unfold dict_get. rewrite with_overview_lookup by discriminate. by rewrite Hkey. }
  rewrite Hk. eauto 6.
Qed.

(** C1. Every certificate in a response of the list view is passing
    and belongs to a course that has an overview, among those the view
    fetched, whose certificates are viewable; the entries are in
    ascending order of their creation value, and where these are
    datetimes the timestamps never decrease. *)
Theorem list_view_passing_viewable_sorted (request : Request) (username : string) t resp :
  CertificatesListView_get request username = (t, inr resp) ->
  exists user_certs,
    resp = Response_ok (JsonArray (list_entry <$> user_certs)) /\
    Forall (fun c =>
              truthy (dict_get (list_entry c) "is_passing") = true /\
              exists ids course_overview,
                QueryCourseOverviews ids ∈ t /\
                (dict_get c "course_key", course_overview) ∈ get_from_ids_if_exists ids /\
                certificates_viewable_for_course course_overview = true)
      user_certs /\
    Sorted (fun a b => py_ascending (dict_get a "created_date") (dict_get b "created_date"))
      (list_entry <$> user_certs) /\
    forall ts,
      (fun e => dict_get e "created_date") <$> (list_entry <$> user_certs) = PDateTime <$> ts ->
      StronglySorted Z.le ts.
Proof.
  intros (user_certs & -> & Hcerts)%list_view_inr. exists user_certs.
  split; [reflexivity |].
  assert (Hsorted : Sorted (fun a b => py_ascending (dict_get a "created_date")
                                         (dict_get b "created_date"))
                      (list_entry <$> user_certs) /\
                    Forall (fun c =>
                      truthy (dict_get (list_entry c) "is_passing") = true /\
                      exists ids course_overview,
                        QueryCourseOverviews ids ∈ t /\
                        (dict_get c "course_key", course_overview) ∈ get_from_ids_if_exists ids /\
                        certificates_viewable_for_course course_overview = true) user_certs).
  { destruct Hcerts as [[-> ->] | (t' & Hget & ->)]; [split; constructor |].
    apply get_certificates_spec in Hget as (ids & viewable & -> & Hperm & Hsorted & Hall).
    split.
    - eapply Sorted_fmap; [| exact Hsorted].
      intros a b Hab. by rewrite !list_entry_created_date.
    - apply Forall_forall. intros c Hc. rewrite Hperm in Hc.
      destruct (viewable_certificate _ _ _ _ Hall Hc) as (c0 & ov & Hlast & Hc0 & Hin & Hview).
      split.
      + destruct (last_passing_Some _ _ _ Hlast) as (_ & Hpass & _).
        rewrite list_entry_is_passing, truthy_get_default.
        unfold dict_get_default. rewrite Hc0, with_overview_lookup by discriminate.
        exact Hpass.
      + exists ids, ov. split_and!; [| exact Hin | exact Hview].
        set_solver. }
  destruct Hsorted as [Hsorted Hall]. split_and!; [exact Hall | exact Hsorted |].
  intros ts Hts. apply Sorted_datetimes. rewrite <- Hts.
  eapply Sorted_fmap; [| exact Hsorted]. auto.
Qed.

(** C3. When the requestor is not the owner, not staff, and the
    target's visible fields do not include the certificates, the list
    view answers with status 200 and an empty list; no exception
    escapes and no certificate is fetched. *)
Theorem list_view_unauthorized_empty (request : Request) (username : string) :
  user_username request <> username ->
  user_is_staff request = false ->
  (forall user, User_objects_get username = Some user ->
                "course_certificates" ∉ visible_fields user) ->
  CertificatesListView_get request username =
    ([QueryUser username], inr (mkResponse 200 (JsonArray []))).
Proof.
  intros Howner Hstaff Hvisible. apply list_view_not_viewable.
  unfold _viewable_by_requestor.
  destruct (User_objects_get username) as [user |] eqn:Huser; [| reflexivity].
  simpl. rewrite Hstaff.
  apply String.eqb_neq in Howner. rewrite Howner.
  rewrite bool_decide_eq_false_2; [reflexivity | auto].
Qed.

(** C9. For a username without a user record the visibility check
    answers false and the list view returns status 200 with an empty
    list, the very response an unauthorized requestor gets. *)
Theorem list_view_unknown_user (request : Request) (username : string) :
  User_objects_get username = None ->
  outcome (_viewable_by_requestor request username) = inr false /\
  outcome (CertificatesListView_get request username) =
    inr (mkResponse 200 (JsonArray [])) /\
  forall (request' : Request) (username' : string),
    outcome (_viewable_by_requestor request' username') = inr false ->
    outcome (CertificatesListView_get request' username') =
    outcome (CertificatesListView_get request username).
Proof.
  intros Huser.
  assert (Hview : outcome (_viewable_by_requestor request username) = inr false).
  { unfold _viewable_by_requestor. by rewrite Huser. }
  split_and!; [exact Hview | by rewrite list_view_not_viewable |].
  intros request' username' Hview'.
  by rewrite !list_view_not_viewable.
Qed.

(** C8. A response of the list view holds at most one certificate per
    course key, and that one is the last passing certificate the
    certificates API listed for the key. *)
Theorem list_view_one_certificate_per_course (request : Request) (username : string) t resp :
  CertificatesListView_get request username = (t, inr resp) ->
  exists user_certs,
    data resp = JsonArray (list_entry <$> user_certs) /\
    NoDup ((fun c => dict_get c "course_key") <$> user_certs) /\
    Forall (fun c => exists c0 course_overview,
              last_passing (dict_get c "course_key") (get_certificates_for_user username)
                = Some c0 /\
              c = with_overview course_overview c0)
      user_certs.
Proof.
  intros (user_certs & -> & Hcerts)%list_view_inr. exists user_certs.
  split; [reflexivity |].
  destruct Hcerts as [[-> ->] | (t' & Hget & ->)]; [split; constructor |].
  apply get_certificates_spec in Hget as (ids & viewable & -> & Hperm & _ & Hall).
  split.
  - rewrite Hperm.
    assert (Hkeys : (fun c => dict_get c "course_key") <$> viewable =
                    (filter (fun p => certificates_viewable_for_course p.2 = true)
                       (get_from_ids_if_exists ids)).*1).
    { apply list_eq_Forall2, Forall2_fmap.
      eapply Forall2_impl; [exact Hall |].
      intros c [k ov] (c0 & Hlast & ->). simpl in *.
      destruct (last_passing_Some _ _ _ Hlast) as (_ & _ & Hkey).
      unfold dict_get. rewrite with_overview_lookup by discriminate. by rewrite Hkey. }
    rewrite Hkeys. eapply sublist_NoDup; [apply (get_from_ids_if_exists_keys ids) | apply fmap_sublist, sublist_filter].
  - apply Forall_forall. intros c Hc. rewrite Hperm in Hc.
    destruct (viewable_certificate _ _ _ _ Hall Hc) as (c0 & ov & Hlast & Hc0 & _).
    eauto.
Qed.

(** C10. Every entry of a list response has exactly eleven keys: the
    ten of the documented shape and [modified_date], which the
    documented shape lacks. [modified_date] is the [modified] value, and
    [course_id] the string rendering of the course key, of a certificate
    listed by the certificates API. *)
Theorem list_view_entry_shape (request : Request) (username : string) t resp entries :
  CertificatesListView_get request username = (t, inr resp) ->
  data resp = JsonArray entries ->
  ("modified_date" ∉ documented_list_keys) /\
  Forall (fun e =>
            size e = 11%nat /\
            dom e = {[ "modified_date" ]} ∪ list_to_set documented_list_keys /\
            exists c0,
              c0 ∈ get_certificates_for_user username /\
              e !! "modified_date" = Some (dict_get c0 "modified") /\
              e !! "course_id" = Some (PStr (text_type (dict_get c0 "course_key"))))
    entries.
Proof.
  intros (user_certs & -> & Hcerts)%list_view_inr [= <-].
  split; [apply (bool_decide_unpack _); by vm_compute |].
  apply Forall_fmap, Forall_forall. intros c Hc. simpl.
  split_and!; [apply list_entry_size | apply list_entry_dom |].
  destruct Hcerts as [[-> _] | (t' & Hget & ->)]; [by apply elem_of_nil in Hc |].
  apply get_certificates_spec in Hget as (ids & viewable & -> & Hperm & _ & Hall).
  rewrite Hperm in Hc.
  destruct (viewable_certificate _ _ _ _ Hall Hc) as (c0 & ov & Hlast & -> & _).
  destruct (last_passing_Some _ _ _ Hlast) as (Hin & _ & _).
  exists c0. split; [exact Hin |].
  unfold list_entry, dict_get.
  split.
  - repeat (rewrite lookup_insert_ne by discriminate). rewrite lookup_insert_eq.
    by rewrite with_overview_lookup by discriminate.
  - repeat (rewrite lookup_insert_ne by discriminate). rewrite lookup_insert_eq.
    by rewrite with_overview_lookup by discriminate.
Qed.

End ListViewFacts.

(** ** When the list view returns *)

Section ReturnsFacts.

Context {CourseKey : Type} `{Platform CourseKey}.
Implicit Types (c : pydict CourseKey) (k : pyval CourseKey).

(** The key is a datetime. *)
Local Abbreviation dated := (fun x : pyval CourseKey * pydict CourseKey =>
                               exists ts, x.1 = PDateTime ts).







End ReturnsFacts.

(** ** The detail view *)

Section DetailViewFacts.

Context {CourseKey : Type} `{Platform CourseKey}.

(** C4. A course id that does not parse as a course key gets status 404
    with the error code [course_id_not_valid]; the view logs a warning
    and does not look a certificate up. *)
Theorem detail_view_invalid_course_id (request : Request) (username course_id : string) :
  from_string course_id = None ->
  outcome (CertificatesDetailView_get request username course_id) =
    inr (mkResponse 404 (JsonObject {[ "error_code" := PStr "course_id_not_valid" ]})) /\
  trace (CertificatesDetailView_get request username course_id) =
    [LogWarning invalid_course_id_fmt course_id] /\
  forall u k,
    CallGetCertificateForUser u k ∉ trace (CertificatesDetailView_get request username course_id).
Proof.
  intros Hkey. unfold CertificatesDetailView_get. rewrite Hkey. simpl.
  split_and!; [reflexivity | reflexivity |].
  intros u k Hin%list_elem_of_singleton. discriminate.
Qed.

(** C5. With a valid course id for which the certificates API has no
    record, the view answers 404 with the error code
    [no_certificate_for_user]; this response differs from the one for an
    invalid course id. *)
Theorem detail_view_no_certificate (request : Request) (username course_id : string)
    (course_key : CourseKey) :
  from_string course_id = Some course_key ->
  get_certificate_for_user username course_key = None ->
  outcome (CertificatesDetailView_get request username course_id) =
    inr (mkResponse 404 (JsonObject {[ "error_code" := PStr "no_certificate_for_user" ]})) /\
  forall (request' : Request) (username' course_id' : string),
    from_string course_id' = None ->
    outcome (CertificatesDetailView_get request' username' course_id') <>
    outcome (CertificatesDetailView_get request username course_id).
Proof.
  intros Hkey Hcert.
  assert (Hout : outcome (CertificatesDetailView_get request username course_id) =
                 inr (mkResponse 404
                        (JsonObject {[ "error_code" := PStr "no_certificate_for_user" ]}))).
  { unfold CertificatesDetailView_get. rewrite Hkey. simpl. by rewrite Hcert. }
  split; [exact Hout |].
  intros request' username' course_id' Hkey'. rewrite Hout.
  unfold CertificatesDetailView_get. rewrite Hkey'. simpl.
  discriminate.
Qed.

(** C2, amended. With a valid course id and an existing certificate
    record the view answers 200 with a record of the eight documented
    fields, each read from the certificate record. *)
Theorem detail_view_success (request : Request) (username course_id : string)
    (course_key : CourseKey) (user_cert : pydict CourseKey) :
  from_string course_id = Some course_key ->
  get_certificate_for_user username course_key = Some user_cert ->
  exists d,
    outcome (CertificatesDetailView_get request username course_id) =
      inr (mkResponse 200 (JsonObject d)) /\
    size d = 8%nat /\
    dom d = list_to_set documented_detail_keys /\
    d !! "username" = Some (dict_get user_cert "username") /\
    d !! "course_id" = Some (PStr (text_type (dict_get user_cert "course_key"))) /\
    d !! "certificate_type" = Some (dict_get user_cert "type") /\
    d !! "created_date" = Some (dict_get user_cert "created") /\
    d !! "status" = Some (dict_get user_cert "status") /\
    d !! "is_passing" = Some (dict_get user_cert "is_passing") /\
    d !! "download_url" = Some (dict_get user_cert "download_url") /\
    d !! "grade" = Some (dict_get user_cert "grade").
Proof.
  intros Hkey Hcert. unfold CertificatesDetailView_get. rewrite Hkey. simpl.
  rewrite Hcert. simpl. eexists. split; [reflexivity |].
  split.
  { change (size (list_to_map (M := pydict CourseKey)
       [ ("username", dict_get user_cert "username");
         ("course_id", PStr (text_type (dict_get user_cert "course_key")));
         ("certificate_type", dict_get user_cert "type");
         ("created_date", dict_get user_cert "created");
         ("status", dict_get user_cert "status");
         ("is_passing", dict_get user_cert "is_passing");
         ("download_url", dict_get user_cert "download_url");
         ("grade", dict_get user_cert "grade") ]) = 8%nat).
    rewrite map_size_list_to_map; [reflexivity |].
    simpl. apply (bool_decide_unpack _). by vm_compute. }
  split.
  { rewrite !dom_insert_L, dom_empty_L. unfold documented_detail_keys. simpl. set_solver. }
  split_and!;
    (repeat (rewrite lookup_insert_ne by discriminate); by rewrite lookup_insert_eq).
Qed.

End DetailViewFacts.

(** ** The proctored-exam permission *)

Section RulesFacts.

Import Rules.

Implicit Types (backends : gmap string (gmap string bool))
  (enrollments : gmap (string * string) string).

Lemma has_perm_enrolled backends enrollments (user course mode : string) exam :
  course_id exam = course ->
  has_perm backends (enroll user course mode enrollments) user perm_name exam =
  if bool_decide (mode ∈ ["verified"; "masters"; "professional"]) then true
  else if String.eqb mode "honor" then allow_honor_mode backends exam
  else false.
Proof.
  intros <-. unfold has_perm, can_take_proctored_exam, enroll.
  by rewrite String.eqb_refl, lookup_insert_eq.
Qed.

Lemma allow_honor_mode_true backends exam :
  allow_honor_mode backends exam = true <->
  exists name config,
    backend exam = Some name /\ backends !! name = Some config /\
    config !! "allow_honor_mode" = Some true.
Proof.
  unfold allow_honor_mode. split.
  - destruct (backend exam) as [name |]; [| discriminate].
    destruct (backends !! name) as [config |] eqn:Hcfg; [| discriminate].
    destruct (config !! "allow_honor_mode") as [[] |] eqn:Hflag; try discriminate.
    eauto.
  - intros (name & config & -> & -> & ->). reflexivity.
Qed.

(** The rows of [test_proctoring_perm] pass, whatever the backends and
    the enrollments before [setUp]. *)
Lemma test_proctoring_perm_passes backends enrollments :
  Forall (fun row => test_proctoring_perm backends enrollments row.1 row.2 = true)
    test_proctoring_perm_data.
Proof.
  unfold test_proctoring_perm_data, test_proctoring_perm.
  repeat constructor; simpl;
    try (rewrite has_perm_enrolled by reflexivity; reflexivity).
  unfold has_perm, can_take_proctored_exam, setUp, unenroll. simpl.
  by rewrite lookup_delete_eq.
Qed.

Lemma test_proctoring_perm_with_honor_mode_permission_passes enrollments :
  test_proctoring_perm_with_honor_mode_permission enrollments = true.
Proof.
  unfold test_proctoring_perm_with_honor_mode_permission.
  rewrite has_perm_enrolled by reflexivity. reflexivity.
Qed.

(** C6. Without a backend in the context, the proctored-exam
    permission is denied to a user without enrollment and to the modes
    audit and no-id-professional, and granted to verified, masters and
    professional. *)
Theorem proctoring_perm_by_mode backends enrollments (user course : string)
    (proctored : option bool) :
  has_perm backends (unenroll user course enrollments) user perm_name
    (mkExam course None proctored) = false /\
  has_perm backends (enroll user course "audit" enrollments) user perm_name
    (mkExam course None proctored) = false /\
  has_perm backends (enroll user course "no-id-professional" enrollments) user perm_name
    (mkExam course None proctored) = false /\
  has_perm backends (enroll user course "verified" enrollments) user perm_name
    (mkExam course None proctored) = true /\
  has_perm backends (enroll user course "masters" enrollments) user perm_name
    (mkExam course None proctored) = true /\
  has_perm backends (enroll user course "professional" enrollments) user perm_name
    (mkExam course None proctored) = true.
Proof.
  split_and!; try (rewrite has_perm_enrolled by reflexivity; reflexivity).
  unfold has_perm, can_take_proctored_exam, unenroll. simpl.
  by rewrite lookup_delete_eq.
Qed.

(** C7. In honor mode the permission is denied when the context names
    no backend, and granted exactly when the context names a backend
    whose configuration sets [allow_honor_mode] to true. *)
Theorem proctoring_perm_honor_mode backends enrollments (user course : string)
    (named : option string) (proctored : option bool) :
  has_perm backends (enroll user course "honor" enrollments) user perm_name
    (mkExam course None proctored) = false /\
  (has_perm backends (enroll user course "honor" enrollments) user perm_name
     (mkExam course named proctored) = true <->
   exists name config,
     named = Some name /\ backends !! name = Some config /\
     config !! "allow_honor_mode" = Some true).
Proof.
  rewrite !has_perm_enrolled by reflexivity. simpl. split; [reflexivity |].
  apply (allow_honor_mode_true backends (mkExam course named proctored)).
Qed.

End RulesFacts.

(** ** What the list view lists, asks for and raises *)

Section ListViewBehaviour.

Context {CourseKey : Type} `{Platform CourseKey}.
Implicit Types (c : pydict CourseKey) (k : pyval CourseKey).

(** [_get_certificates_for_user], stage by stage. *)
Lemma get_certificates_unfold (username : string) :
  _get_certificates_for_user username =
  match collect_passing (get_certificates_for_user username) OrderedDict.empty with
  | inl e => ([CallGetCertificatesForUser username], inl e)
  | inr d =>
      ([CallGetCertificatesForUser username; QueryCourseOverviews (OrderedDict.keys d)],
       match collect_viewable (get_from_ids_if_exists (OrderedDict.keys d)) d [] with
       | inl e => inl e
       | inr v => list_sort (fun certificate => dict_index certificate "created") v
       end)
  end.
Proof.
  unfold _get_certificates_for_user.
  destruct (collect_passing _ _) as [e | d]; [reflexivity |]. simpl.
  by destruct (collect_viewable _ _ _).
Qed.

(** The list view of a request that passes the visibility check. *)
Lemma list_view_viewable (request : Request) (username : string) :
  outcome (_viewable_by_requestor request username) = inr true ->
  CertificatesListView_get request username =
  (QueryUser username :: trace (_get_certificates_for_user username),
   match outcome (_get_certificates_for_user username) with
   | inl e => inl e
   | inr user_certs => inr (Response_ok (JsonArray (list_entry <$> user_certs)))
   end).
Proof.
  destruct (viewable_by_requestor_returns request username) as [b Hb].
  unfold CertificatesListView_get. rewrite Hb.
  destruct (_get_certificates_for_user username) as [t [e | certs]];
    simpl; intros [= ->]; [reflexivity |].
  by rewrite app_nil_r.
Qed.

Lemma last_passing_is_Some k l :
  is_Some (last_passing k l) <->
  exists c, c ∈ l /\ is_passing c = true /\ c !! "course_key" = Some k.
Proof.
  split.
  - intros [c Hc]. exists c. by apply last_passing_Some.
  - intros (c & Hin & Hpass & Hkey). unfold last_passing. apply last_is_Some.
    intros Hnil. by apply (filter_nil_not_elem_of _ _ c Hnil).
Qed.

(** The keys of the dict built by the first loop are the course keys of
    the passing certificates. *)
Lemma collect_passing_keys l d k :
  collect_passing l OrderedDict.empty = inr d ->
  k ∈ OrderedDict.keys d <->
  exists c, c ∈ l /\ is_passing c = true /\ c !! "course_key" = Some k.
Proof.
  intros Hd. rewrite <- last_passing_is_Some, <- (collect_passing_empty _ _ _ Hd).
  split; [apply getitem_is_Some |]. intros [c Hc]. by eapply getitem_keys.
Qed.

(** The first loop raises only [KeyError], and only for a passing
    certificate without a course key. *)
Lemma collect_passing_raises l acc e :
  collect_passing l acc = inl e ->
  e = KeyError /\ exists c, c ∈ l /\ is_passing c = true /\ c !! "course_key" = None.
Proof.
  revert acc. induction l as [| c l IH]; simpl; intros acc; [discriminate |].
  fold (is_passing c). destruct (is_passing c) eqn:Hpass.
  - unfold dict_index. destruct (c !! "course_key") as [kc |] eqn:Hkc; simpl.
    + intros (-> & c' & Hin & Hc')%IH. split; [reflexivity |].
      exists c'. split; [by right | exact Hc'].
    + intros [= <-]. split; [reflexivity |]. exists c. split; [left | auto].
  - intros (-> & c' & Hin & Hc')%IH. split; [reflexivity |].
    exists c'. split; [by right | exact Hc'].
Qed.

(** The second loop raises only [KeyError], and only for a viewable
    course whose key is not in the dict. *)
Lemma collect_viewable_raises items d acc e :
  collect_viewable items d acc = inl e ->
  e = KeyError /\
  exists k ov, (k, ov) ∈ items /\ certificates_viewable_for_course ov = true /\
               OrderedDict.getitem k d = None.
Proof.
  revert acc. induction items as [| [k ov] items IH]; simpl; intros acc; [discriminate |].
  destruct (certificates_viewable_for_course ov) eqn:Hview.
  - destruct (OrderedDict.getitem k d) as [c0 |] eqn:Hget.
    + intros (-> & k' & ov' & Hin & Hk')%IH. split; [reflexivity |].
      exists k', ov'. split; [by right | exact Hk'].
    + intros [= <-]. split; [reflexivity |]. exists k, ov. split; [left | auto].
  - intros (-> & k' & ov' & Hin & Hk')%IH. split; [reflexivity |].
    exists k', ov'. split; [by right | exact Hk'].
Qed.

Lemma collect_viewable_stray items d acc k ov :
  (k, ov) ∈ items -> certificates_viewable_for_course ov = true ->
  OrderedDict.getitem k d = None ->
  collect_viewable items d acc = inl KeyError.
Proof.
  intros Hin Hview Hget. revert acc.
  induction items as [| [k' ov'] items IH]; simpl; intros acc;
    [by apply elem_of_nil in Hin |].
  apply elem_of_cons in Hin as [[= <- <-] | Hin].
  - by rewrite Hview, Hget.
  - destruct (certificates_viewable_for_course ov'); [| by apply IH].
    destruct (OrderedDict.getitem k' d); [by apply IH | reflexivity].
Qed.

Lemma collect_passing_course_keys l acc d :
  collect_passing l acc = inr d ->
  Forall (fun c => is_passing c = true -> is_Some (c !! "course_key")) l.
Proof.
  revert acc. induction l as [| c l IH]; simpl; intros acc; [constructor |].
  fold (is_passing c). destruct (is_passing c) eqn:Hpass.
  - unfold dict_index. destruct (c !! "course_key") as [kc |] eqn:Hkc; simpl; [| discriminate].
    intros Hd. constructor; [eauto | by eapply IH].
  - intros Hd. constructor; [simpl; congruence | by eapply IH].
Qed.

(** Sorting by [created] raises [KeyError] when an element has no such
    key. *)
Lemma list_sort_missing_created (l : list (pydict CourseKey)) c :
  c ∈ l -> c !! "created" = None ->
  list_sort (fun certificate => dict_index certificate "created") l = inl KeyError.
Proof.
  intros Hin Hc. unfold list_sort.
  assert (Hkeyed : keyed (fun certificate => dict_index certificate "created") l
                   = inl KeyError); [| by rewrite Hkeyed].
  induction l as [| a l IH]; [by apply elem_of_nil in Hin |]. simpl.
  unfold dict_index at 1. destruct (a !! "created") as [v |] eqn:Ha; [| reflexivity].
  apply elem_of_cons in Hin as [-> | Hin]; [congruence |].
  simpl. by rewrite IH.
Qed.

(** The certificates the second loop found, for a viewable item. *)
Lemma collect_viewable_elem_of items d r k ov :
  collect_viewable items d [] = inr r ->
  (k, ov) ∈ items -> certificates_viewable_for_course ov = true ->
  exists c0, OrderedDict.getitem k d = Some c0 /\ with_overview ov c0 ∈ r.
Proof.
  intros (added & -> & Hall)%collect_viewable_spec Hin Hview. simpl.
  assert (Hsel : (k, ov) ∈ filter (fun p => certificates_viewable_for_course p.2 = true) items)
    by by apply list_elem_of_filter.
  apply list_elem_of_lookup in Hsel as [i Hi].
  destruct (Forall2_lookup_r _ _ _ _ _ Hall Hi) as (c & Hc & c0 & Hget & ->).
  exists c0. split; [exact Hget |]. by eapply list_elem_of_lookup_2.
Qed.

(** X1. An authorized request that gets a response gets one entry for
    every course the overview lookup returned as viewable, made from the
    last passing certificate for that course, and no further entries;
    the view asks each service once. *)
Theorem list_view_lists_every_viewable_course (request : Request) (username : string) t resp :
  outcome (_viewable_by_requestor request username) = inr true ->
  CertificatesListView_get request username = (t, inr resp) ->
  exists ids user_certs,
    t = [QueryUser username; CallGetCertificatesForUser username; QueryCourseOverviews ids] /\
    resp = Response_ok (JsonArray (list_entry <$> user_certs)) /\
    length user_certs =
      length (filter (fun p => certificates_viewable_for_course p.2 = true)
                (get_from_ids_if_exists ids)) /\
    forall k ov,
      (k, ov) ∈ get_from_ids_if_exists ids ->
      certificates_viewable_for_course ov = true ->
      exists c0,
        last_passing k (get_certificates_for_user username) = Some c0 /\
        with_overview ov c0 ∈ user_certs.
Proof.
  intros Hview. rewrite (list_view_viewable _ _ Hview), get_certificates_unfold.
  destruct (collect_passing _ _) as [e | d] eqn:Hd; simpl; [discriminate |].
  destruct (collect_viewable _ _ _) as [e | v] eqn:Hv; [discriminate |].
  destruct (list_sort _ v) as [e | certs] eqn:Hsort; [discriminate |].
  intros [= <- <-]. exists (OrderedDict.keys d), certs.
  apply list_sort_spec in Hsort as [Hperm _].
  split_and!; [reflexivity | reflexivity | |].
  - rewrite Hperm.
    apply collect_viewable_spec in Hv as (added & -> & Hall). simpl.
    by eapply Forall2_length.
  - intros k ov Hin Hov.
    destruct (collect_viewable_elem_of _ _ _ _ _ Hv Hin Hov) as (c0 & Hget & Hc0).
    exists c0. rewrite <- (collect_passing_empty _ _ _ Hd). split; [exact Hget |].
    by rewrite Hperm.
Qed.

(** X2. The overview lookup of an authorized request is the third and
    last call of the view; it is asked for the course keys of the passing
    certificates, each once, and for nothing else. *)
Theorem list_view_overview_query (request : Request) (username : string) t r ids :
  outcome (_viewable_by_requestor request username) = inr true ->
  CertificatesListView_get request username = (t, r) ->
  QueryCourseOverviews ids ∈ t ->
  t = [QueryUser username; CallGetCertificatesForUser username; QueryCourseOverviews ids] /\
  NoDup ids /\
  forall k,
    k ∈ ids <->
    exists c, c ∈ get_certificates_for_user username /\ is_passing c = true /\
              c !! "course_key" = Some k.
Proof.
  intros Hview. rewrite (list_view_viewable _ _ Hview), get_certificates_unfold.
  destruct (collect_passing _ _) as [e | d] eqn:Hd; simpl; intros [= <- _] Hin.
  - apply elem_of_cons in Hin as [[=] | Hin].
    apply list_elem_of_singleton in Hin. discriminate.
  - apply elem_of_cons in Hin as [[=] | Hin].
    apply elem_of_cons in Hin as [[=] | Hin].
    apply list_elem_of_singleton in Hin. injection Hin as ->.
    split_and!; [reflexivity | |].
    + eapply collect_passing_keys_NoDup; [exact Hd | constructor].
    + intros k. by apply collect_passing_keys.
Qed.

(** X3. The course name and organization of every entry are those of
    an overview the view fetched for the certificate's course key,
    whatever the certificate record held under these names. *)
Theorem list_view_names_from_overview (request : Request) (username : string) t resp :
  CertificatesListView_get request username = (t, inr resp) ->
  exists user_certs,
    data resp = JsonArray (list_entry <$> user_certs) /\
    Forall (fun c => exists ids course_overview,
              QueryCourseOverviews ids ∈ t /\
              (dict_get c "course_key", course_overview) ∈ get_from_ids_if_exists ids /\
              list_entry c !! "course_display_name" =
                Some (display_name_with_default course_overview) /\
              list_entry c !! "course_organization" =
                Some (display_org_with_default course_overview))
      user_certs.
Proof.
  intros (user_certs & -> & Hcerts)%list_view_inr. exists user_certs.
  split; [reflexivity |].
  destruct Hcerts as [[-> ->] | (t' & Hget & ->)]; [constructor |].
  apply get_certificates_spec in Hget as (ids & viewable & -> & Hperm & _ & Hall).
  apply Forall_forall. intros c Hc. rewrite Hperm in Hc.
  destruct (viewable_certificate _ _ _ _ Hall Hc) as (c0 & ov & _ & Hc0 & Hin & _).
  exists ids, ov. split_and!; [set_solver | exact Hin | |].
  - unfold list_entry. repeat (rewrite lookup_insert_ne by discriminate).
    rewrite lookup_insert_eq. unfold dict_get. rewrite Hc0. unfold with_overview.
    rewrite lookup_insert_ne by discriminate. by rewrite lookup_insert_eq.
  - unfold list_entry. repeat (rewrite lookup_insert_ne by discriminate).
    rewrite lookup_insert_eq. unfold dict_get. rewrite Hc0. unfold with_overview.
    by rewrite lookup_insert_eq.
Qed.

(** X4. For an authorized request the view raises [KeyError] right
    after fetching the certificates, before any overview lookup, exactly
    when a passing certificate has no course key. *)
Theorem list_view_missing_course_key (request : Request) (username : string) :
  outcome (_viewable_by_requestor request username) = inr true ->
  (exists c, c ∈ get_certificates_for_user username /\ is_passing c = true /\
             c !! "course_key" = None) <->
  CertificatesListView_get request username =
    ([QueryUser username; CallGetCertificatesForUser username], inl KeyError).
Proof.
  intros Hview. rewrite (list_view_viewable _ _ Hview), get_certificates_unfold.
  destruct (collect_passing _ _) as [e | d] eqn:Hd; simpl.
  - destruct (collect_passing_raises _ _ _ Hd) as [-> Hc]. tauto.
  - split; [| discriminate].
    intros (c & Hin & Hpass & Hkey).
    apply collect_passing_course_keys in Hd. rewrite Forall_forall in Hd.
    destruct (Hd c Hin Hpass) as [kc Hkc]. congruence.
Qed.

(** X5. When the overview lookup answers with a viewable course it
    was not asked for, an authorized request ends in [KeyError]. *)
Theorem list_view_stray_overview (request : Request) (username : string) t r ids k ov :
  outcome (_viewable_by_requestor request username) = inr true ->
  CertificatesListView_get request username = (t, r) ->
  QueryCourseOverviews ids ∈ t ->
  (k, ov) ∈ get_from_ids_if_exists ids ->
  certificates_viewable_for_course ov = true ->
  k ∉ ids ->
  r = inl KeyError.
Proof.
  intros Hview. rewrite (list_view_viewable _ _ Hview), get_certificates_unfold.
  destruct (collect_passing _ _) as [e | d] eqn:Hd; simpl; intros [= <- <-] Hin.
  - apply elem_of_cons in Hin as [[=] | Hin].
    apply list_elem_of_singleton in Hin. discriminate.
  - apply elem_of_cons in Hin as [[=] | Hin].
    apply elem_of_cons in Hin as [[=] | Hin].
    apply list_elem_of_singleton in Hin. injection Hin as ->.
    intros Hitem Hov Hk.
    rewrite (collect_viewable_stray _ d [] k ov Hitem Hov); [reflexivity |].
    destruct (OrderedDict.getitem k d) as [c0 |] eqn:Hget; [| reflexivity].
    destruct Hk. by eapply getitem_keys.
Qed.

(** X6. When the last passing certificate of a viewable course has no
    [created] key, an authorized request ends in [KeyError]. *)
Theorem list_view_missing_created (request : Request) (username : string) t r ids k ov c0 :
  outcome (_viewable_by_requestor request username) = inr true ->
  CertificatesListView_get request username = (t, r) ->
  QueryCourseOverviews ids ∈ t ->
  (k, ov) ∈ get_from_ids_if_exists ids ->
  certificates_viewable_for_course ov = true ->
  last_passing k (get_certificates_for_user username) = Some c0 ->
  c0 !! "created" = None ->
  r = inl KeyError.
Proof.
  intros Hview. rewrite (list_view_viewable _ _ Hview), get_certificates_unfold.
  destruct (collect_passing _ _) as [e | d] eqn:Hd; simpl; intros [= <- <-] Hin.
  - apply elem_of_cons in Hin as [[=] | Hin].
    apply list_elem_of_singleton in Hin. discriminate.
  - apply elem_of_cons in Hin as [[=] | Hin].
    apply elem_of_cons in Hin as [[=] | Hin].
    apply list_elem_of_singleton in Hin. injection Hin as ->.
    intros Hitem Hov Hlast Hcreated.
    destruct (collect_viewable _ _ _) as [e | v] eqn:Hv.
    + by destruct (collect_viewable_raises _ _ _ _ Hv) as [-> _].
    + destruct (collect_viewable_elem_of _ _ _ _ _ Hv Hitem Hov) as (c1 & Hget & Hc1).
      rewrite (collect_passing_empty _ _ _ Hd), Hlast in Hget. injection Hget as <-.
      rewrite (list_sort_missing_created _ _ Hc1); [reflexivity |].
      by rewrite with_overview_lookup by discriminate.
Qed.

End ListViewBehaviour.

(** ** Sorting: exceptions and ties *)

Lemma filter_none {T : Type} (P : T -> Prop) `{forall x, Decision (P x)} (l : list T) :
  Forall (fun x => ~ P x) l -> filter P l = [].
Proof.
  induction 1 as [| x l Hx Hl IH]; [reflexivity |].
  by rewrite filter_cons_False.
Qed.

Section SortBehaviour.

Context {CourseKey : Type} `{Platform CourseKey} {A : Type}.
Implicit Types (x y : pyval CourseKey * A) (l r : list (pyval CourseKey * A)).

Local Abbreviation keys_ascending := (fun x y => py_ascending x.1 y.1).
Local Abbreviation dated := (fun x : pyval CourseKey * A => exists ts, x.1 = PDateTime ts).

Lemma py_lt_None_r (a : pyval CourseKey) : py_lt a PNone = inl TypeError.
Proof. by destruct a. Qed.

Lemma py_lt_None_l (a : pyval CourseKey) : py_lt PNone a = inl TypeError.
Proof. reflexivity. Qed.

Lemma py_lt_raises (a b : pyval CourseKey) e : py_lt a b = inl e -> e = TypeError.
Proof. destruct a, b; cbv [py_lt ok throw]; intros Heq; by inversion Heq. Qed.

Lemma insert_by_key_raises x l e : insert_by_key x l = inl e -> e = TypeError.
Proof.
  induction l as [| y l IH]; simpl; [discriminate |].
  destruct (py_lt x.1 y.1) as [e' | []] eqn:Hlt; simpl.
  - intros [= <-]. by eapply py_lt_raises.
  - discriminate.
  - destruct (insert_by_key x l); simpl; [| discriminate]. intros [= <-]. auto.
Qed.

(** Two or more elements, one of them keyed [None], do not sort. *)
Lemma sort_keyed_None todo sorted :
  (Forall (fun y => y.1 <> PNone) sorted \/ exists n, sorted = [n] /\ n.1 = PNone) ->
  Exists (fun y => y.1 = PNone) (todo ++ sorted) ->
  (2 <= length (todo ++ sorted))%nat ->
  sort_keyed todo sorted = inl TypeError.
Proof.
  revert sorted. induction todo as [| x todo IH]; simpl; intros sorted Hinv Hnone Hlen.
  - destruct Hinv as [Hall | (n & -> & _)]; [| simpl in Hlen; lia].
    apply Exists_exists in Hnone as (y & Hy & Hnone).
    rewrite Forall_forall in Hall. by destruct (Hall y Hy).
  - destruct (insert_by_key x sorted) as [e | s] eqn:Hins; simpl.
    { by rewrite (insert_by_key_raises _ _ _ Hins). }
    pose proof (insert_by_key_perm _ _ _ Hins) as Hperm.
    apply IH.
    + destruct Hinv as [Hall | (n & -> & Hn)].
      * destruct (decide (x.1 = PNone)) as [Hx | Hx].
        -- destruct sorted as [| y sorted]; simpl in Hins.
           ++ injection Hins as <-. right. eauto.
           ++ rewrite Hx in Hins. discriminate.
        -- left. rewrite Hperm. by constructor.
      * simpl in Hins. rewrite Hn, py_lt_None_r in Hins. discriminate.
    + rewrite Hperm. rewrite <- Permutation_middle. exact Hnone.
    + rewrite Hperm. rewrite <- Permutation_middle. exact Hlen.
Qed.

Lemma Sorted_dated l :
  Forall dated l -> Sorted keys_ascending l ->
  StronglySorted (fun x y => exists tx ty, x.1 = PDateTime tx /\ y.1 = PDateTime ty /\ tx <= ty) l.
Proof.
  intros Hdated Hsorted. apply Sorted_StronglySorted.
  - intros x y z (tx & ty & Hx & Hy & Hxy) (ty' & tz & Hy' & Hz & Hyz).
    exists tx, tz. split_and!; [done | done |].
    rewrite Hy in Hy'. injection Hy' as <-. lia.
  - eapply Sorted_weaken; [| exact (Sorted_Forall _ _ _ Hsorted Hdated)].
    intros x y (Hxy & [tx Hx] & [ty Hy]). exists tx, ty. split_and!; [done | done |].
    unfold py_ascending in Hxy. rewrite Hx, Hy in Hxy. simpl in Hxy.
    destruct Hxy as [[= Hlt] | [= Hlt]]; lia.
Qed.

(** Inserting an element puts it behind the elements with the same key
    and does not reorder the others. *)
Lemma insert_by_key_stable x l r (v : pyval CourseKey) :
  dated x -> Forall dated l -> Sorted keys_ascending l ->
  insert_by_key x l = inr r ->
  filter (fun y => y.1 = v) r =
  filter (fun y => y.1 = v) l ++ filter (fun y => y.1 = v) [x].
Proof.
  intros [tx Hx] Hdated Hsorted. revert r.
  induction l as [| y l IH]; simpl; intros r.
  - by intros [= <-].
  - apply Forall_cons in Hdated as [[ty Hy] Hdated].
    rewrite Hx, Hy. simpl. destruct (tx <? ty) eqn:Hlt; simpl.
    + intros [= <-]. apply Z.ltb_lt in Hlt.
      rewrite (filter_cons _ x). destruct (decide (x.1 = v)) as [Hv | Hv].
      * subst v.
        assert (Hnone : filter (fun y0 => y0.1 = x.1) (y :: l) = []).
        { apply Sorted_dated in Hsorted; [| by constructor; eauto].
          apply StronglySorted_inv in Hsorted as [_ Hall].
          apply filter_none. rewrite Forall_forall in Hall |- *.
          intros z [-> | Hz]%elem_of_cons; simpl.
          - rewrite Hy, Hx. intros [= ?]. lia.
          - destruct (Hall z Hz) as (ty' & tz & Hy' & Hz' & Hle).
            rewrite Hy in Hy'. injection Hy' as <-.
            rewrite Hz', Hx. intros [= ?]. lia. }
        rewrite Hnone. by rewrite !filter_cons, decide_True.
      * rewrite !(filter_cons _ x), decide_False by done. by rewrite app_nil_r.
    + intros (r' & Hr' & [= <-])%rbind_inr.
      apply Sorted_inv in Hsorted as [Hsorted _].
      rewrite !(filter_cons _ y), (IH Hdated Hsorted _ Hr').
      by destruct (decide (y.1 = v)).
Qed.

Lemma sort_keyed_stable todo sorted r (v : pyval CourseKey) :
  Forall dated todo -> Forall dated sorted -> Sorted keys_ascending sorted ->
  sort_keyed todo sorted = inr r ->
  filter (fun y => y.1 = v) r =
  filter (fun y => y.1 = v) sorted ++ filter (fun y => y.1 = v) todo.
Proof.
  intros Htodo. revert sorted.
  induction Htodo as [| x todo Hx Htodo IH]; simpl; intros sorted Hdated Hsorted.
  - intros [= <-]. by rewrite app_nil_r.
  - intros (s & Hs & Hr)%rbind_inr.
    rewrite (IH s); [| | by eapply insert_by_key_Sorted | exact Hr].
    + rewrite (insert_by_key_stable _ _ _ v Hx Hdated Hsorted Hs), <- app_assoc.
      f_equal. rewrite (filter_cons _ x todo), (filter_cons _ x []).
      by destruct (decide (x.1 = v)).
    + rewrite (insert_by_key_perm _ _ _ Hs). by constructor.
Qed.

End SortBehaviour.

(** ** The list view: creation values that do not sort, and ties *)

Section ListViewSorting.

Context {CourseKey : Type} `{Platform CourseKey}.
Implicit Types (c : pydict CourseKey) (k : pyval CourseKey) (l s : list (pydict CourseKey)).

Lemma keyed_created l :
  Forall (fun c => is_Some (c !! "created")) l ->
  keyed (fun certificate => dict_index certificate "created") l =
  inr ((fun c => (dict_get c "created", c)) <$> l).
Proof.
  induction 1 as [| c l [v Hc] Hl IH]; [reflexivity |]. simpl.
  unfold dict_index at 1, dict_get at 1. rewrite Hc, IH. reflexivity.
Qed.

Lemma list_sort_created_keys l s :
  list_sort (fun certificate => dict_index certificate "created") l = inr s ->
  Forall (fun c => is_Some (c !! "created")) l.
Proof.
  unfold list_sort. intros (kl & Hkl & _)%rbind_inr.
  destruct (keyed_spec _ _ _ Hkl) as [<- Hkeys].
  apply Forall_fmap. eapply Forall_impl; [exact Hkeys |].
  intros [v c]. simpl. unfold dict_index. destruct (c !! "created"); [eauto | discriminate].
Qed.

(** Two or more certificates, one of them created at [None], do not
    sort. *)
Lemma list_sort_created_None l c :
  c ∈ l -> c !! "created" = Some PNone -> (2 <= length l)%nat ->
  exists e, list_sort (fun certificate => dict_index certificate "created") l = inl e.
Proof.
  intros Hin Hc Hlen.
  destruct (list_sort _ l) as [e | s] eqn:Hsort; [eauto |]. exfalso.
  pose proof (list_sort_created_keys _ _ Hsort) as Hkeys.
  unfold list_sort in Hsort. rewrite (keyed_created _ Hkeys) in Hsort. simpl in Hsort.
  rewrite sort_keyed_None in Hsort; [discriminate | left; constructor | |].
  - rewrite app_nil_r. apply Exists_exists. exists (dict_get c "created", c). split.
    + by apply (list_elem_of_fmap_2 (fun c => (dict_get c "created", c))).
    + simpl. unfold dict_get. by rewrite Hc.
  - by rewrite app_nil_r, length_fmap.
Qed.

Lemma filter_fmap_snd {K V : Type} (P : V -> Prop) (Q : K * V -> Prop)
    `{forall x, Decision (P x)} `{forall x, Decision (Q x)} (l : list (K * V)) :
  Forall (fun p => P p.2 <-> Q p) l -> filter P l.*2 = (filter Q l).*2.
Proof.
  induction 1 as [| p l Hp Hl IH]; [reflexivity |].
  rewrite fmap_cons, !filter_cons, IH.
  destruct (decide (P p.2)), (decide (Q p)); tauto.
Qed.

(** Sorting certificates by their creation datetime keeps those
    created at the same time in their order. *)
Lemma list_sort_created_stable l s (ts : Z) :
  Forall (fun c => exists ts', c !! "created" = Some (PDateTime ts')) l ->
  list_sort (fun certificate => dict_index certificate "created") l = inr s ->
  filter (fun c => c !! "created" = Some (PDateTime ts)) s =
  filter (fun c => c !! "created" = Some (PDateTime ts)) l.
Proof.
  intros Hdated. unfold list_sort. rewrite keyed_created.
  2: { eapply Forall_impl; [exact Hdated |]. intros c [ts' ->]. eauto. }
  simpl. intros (r & Hr & [= <-])%rbind_inr.
  set (kl := (fun c => (dict_get c "created", c)) <$> l) in *.
  assert (Hkl : Forall (fun p : pyval CourseKey * pydict CourseKey =>
                          p.2 !! "created" = Some (PDateTime ts) <-> p.1 = PDateTime ts) kl).
  { apply Forall_fmap. eapply Forall_impl; [exact Hdated |].
    intros c [ts' Hc]. simpl. unfold dict_get. rewrite Hc. simpl. split; congruence. }
  assert (Hkl_dated : Forall (fun p : pyval CourseKey * pydict CourseKey =>
                                exists ts', p.1 = PDateTime ts') kl).
  { apply Forall_fmap. eapply Forall_impl; [exact Hdated |].
    intros c [ts' Hc]. simpl. unfold dict_get. rewrite Hc. eauto. }
  destruct (sort_keyed_spec _ _ _ Hr) as [_ Hperm]; [constructor |].
  rewrite app_nil_r in Hperm.
  rewrite (filter_fmap_snd (fun c => c !! "created" = Some (PDateTime ts))
             (fun p => p.1 = PDateTime ts) r) by by rewrite Hperm.
  rewrite (sort_keyed_stable _ _ _ (PDateTime ts) Hkl_dated (Forall_nil_2 _) (Sorted_nil _) Hr).
  simpl. rewrite <- (filter_fmap_snd (fun c => c !! "created" = Some (PDateTime ts))
                       (fun p => p.1 = PDateTime ts) kl) by exact Hkl.
  unfold kl. rewrite <- list_fmap_compose. simpl. by rewrite list_fmap_id.
Qed.

(** The stages of an authorized request that has reached the overview
    lookup. *)
Lemma list_view_stages (request : Request) (username : string) t r ids :
  outcome (_viewable_by_requestor request username) = inr true ->
  CertificatesListView_get request username = (t, r) ->
  QueryCourseOverviews ids ∈ t ->
  exists d,
    collect_passing (get_certificates_for_user username) OrderedDict.empty = inr d /\
    ids = OrderedDict.keys d /\
    r = match collect_viewable (get_from_ids_if_exists ids) d [] with
        | inl e => inl e
        | inr v =>
            match list_sort (fun certificate => dict_index certificate "created") v with
            | inl e => inl e
            | inr user_certs => inr (Response_ok (JsonArray (list_entry <$> user_certs)))
            end
        end.
Proof.
  intros Hview. rewrite (list_view_viewable _ _ Hview), get_certificates_unfold.
  destruct (collect_passing _ _) as [e | d] eqn:Hd; simpl; intros [= <- <-] Hin.
  - apply elem_of_cons in Hin as [[=] | Hin].
    apply list_elem_of_singleton in Hin. discriminate.
  - apply elem_of_cons in Hin as [[=] | Hin].
    apply elem_of_cons in Hin as [[=] | Hin].
    apply list_elem_of_singleton in Hin. injection Hin as ->.
    exists d. split_and!; [reflexivity | reflexivity |].
    by destruct (collect_viewable _ _ _).
Qed.

(** X7. When two or more viewable courses were fetched and the last
    passing certificate of one of them is created at [None], an
    authorized request gets no response: the view raises. *)
Theorem list_view_created_None (request : Request) (username : string) t r ids k ov c0 :
  outcome (_viewable_by_requestor request username) = inr true ->
  CertificatesListView_get request username = (t, r) ->
  QueryCourseOverviews ids ∈ t ->
  (k, ov) ∈ get_from_ids_if_exists ids ->
  certificates_viewable_for_course ov = true ->
  last_passing k (get_certificates_for_user username) = Some c0 ->
  c0 !! "created" = Some PNone ->
  (2 <= length (filter (fun p => certificates_viewable_for_course p.2 = true)
                  (get_from_ids_if_exists ids)))%nat ->
  exists e, r = inl e.
Proof.
  intros Hview Hget Hquery Hitem Hov Hlast Hcreated Hlen.
  destruct (list_view_stages _ _ _ _ _ Hview Hget Hquery) as (d & Hd & -> & ->).
  destruct (collect_viewable _ _ _) as [e | v] eqn:Hv; [eauto |].
  destruct (collect_viewable_elem_of _ _ _ _ _ Hv Hitem Hov) as (c1 & Hc1 & Hin).
  rewrite (collect_passing_empty _ _ _ Hd), Hlast in Hc1. injection Hc1 as <-.
  destruct (list_sort_created_None v (with_overview ov c0) Hin) as [e ->]; [| | eauto].
  - by rewrite with_overview_lookup by discriminate.
  - apply collect_viewable_spec in Hv as (added & -> & Hall). simpl.
    by rewrite (Forall2_length _ _ _ Hall).
Qed.

(** X8. When exactly one viewable course was fetched, an authorized
    request gets the one entry made from its last passing certificate,
    whatever value the certificate holds under [created]. *)
Theorem list_view_single_certificate (request : Request) (username : string) t r ids k ov c0 :
  outcome (_viewable_by_requestor request username) = inr true ->
  CertificatesListView_get request username = (t, r) ->
  QueryCourseOverviews ids ∈ t ->
  filter (fun p => certificates_viewable_for_course p.2 = true) (get_from_ids_if_exists ids)
    = [(k, ov)] ->
  last_passing k (get_certificates_for_user username) = Some c0 ->
  is_Some (c0 !! "created") ->
  r = inr (Response_ok (JsonArray [list_entry (with_overview ov c0)])).
Proof.
  intros Hview Hget Hquery Hitems Hlast [v Hcreated].
  destruct (list_view_stages _ _ _ _ _ Hview Hget Hquery) as (d & Hd & -> & ->).
  destruct (collect_viewable _ _ _) as [e | certs] eqn:Hv.
  - destruct (collect_viewable_raises _ _ _ _ Hv) as (_ & k' & ov' & Hin & Hov' & Hnone).
    assert (Hsel : (k', ov') ∈ [(k, ov)]).
    { rewrite <- Hitems. by apply list_elem_of_filter. }
    apply list_elem_of_singleton in Hsel. injection Hsel as -> ->.
    rewrite (collect_passing_empty _ _ _ Hd), Hlast in Hnone. discriminate.
  - apply collect_viewable_spec in Hv as (added & -> & Hall). simpl.
    rewrite Hitems in Hall.
    apply Forall2_cons_inv_r in Hall as (c & rest & (c1 & Hc1 & ->) & Hrest & ->).
    apply Forall2_nil_inv_r in Hrest as ->. simpl in Hc1.
    rewrite (collect_passing_empty _ _ _ Hd), Hlast in Hc1. injection Hc1 as <-.
    unfold list_sort. simpl. unfold dict_index.
    rewrite with_overview_lookup by discriminate. by rewrite Hcreated.
Qed.

(** X9. When the passing certificates of the user are created at
    datetimes, the entries of an authorized request that were created at
    the same time stand in the order in which the overview lookup
    returned their courses. *)
Theorem list_view_ties_in_overview_order (request : Request) (username : string) t resp ids :
  outcome (_viewable_by_requestor request username) = inr true ->
  CertificatesListView_get request username = (t, inr resp) ->
  QueryCourseOverviews ids ∈ t ->
  Forall (fun c => is_passing c = true -> exists ts, c !! "created" = Some (PDateTime ts))
    (get_certificates_for_user username) ->
  exists user_certs fetched,
    resp = Response_ok (JsonArray (list_entry <$> user_certs)) /\
    Forall2 (fun c p => exists c1,
                 last_passing p.1 (get_certificates_for_user username) = Some c1 /\
                 c = with_overview p.2 c1)
      fetched
      (filter (fun p => certificates_viewable_for_course p.2 = true)
         (get_from_ids_if_exists ids)) /\
    forall ts,
      filter (fun c => c !! "created" = Some (PDateTime ts)) user_certs =
      filter (fun c => c !! "created" = Some (PDateTime ts)) fetched.
Proof.
  intros Hview Hget Hquery Hdated.
  destruct (list_view_stages _ _ _ _ _ Hview Hget Hquery) as (d & Hd & -> & Hr).
  destruct (collect_viewable _ _ _) as [e | v] eqn:Hv; [discriminate |].
  destruct (list_sort _ v) as [e | user_certs] eqn:Hsort; [discriminate |].
  injection Hr as ->. exists user_certs, v.
  apply collect_viewable_spec in Hv as (added & -> & Hall). simpl in *.
  assert (Hfetched : Forall2 (fun c p => exists c1,
             last_passing p.1 (get_certificates_for_user username) = Some c1 /\
             c = with_overview p.2 c1) added
             (filter (fun p => certificates_viewable_for_course p.2 = true)
                (get_from_ids_if_exists (OrderedDict.keys d)))).
  { eapply Forall2_impl; [exact Hall |].
    intros c p (c1 & Hc1 & ->). exists c1. split; [| reflexivity].
    by rewrite <- (collect_passing_empty _ _ _ Hd). }
  split_and!; [reflexivity | exact Hfetched |].
  intros ts. apply list_sort_created_stable; [| exact Hsort].
  apply Forall_forall. intros c Hc.
  apply list_elem_of_lookup in Hc as [i Hi].
  destruct (Forall2_lookup_l _ _ _ _ _ Hfetched Hi) as (p & _ & c1 & Hc1 & ->).
  apply last_passing_Some in Hc1 as (Hin & Hpass & _).
  rewrite Forall_forall in Hdated. destruct (Hdated c1 Hin Hpass) as [ts' Hts].
  exists ts'. by rewrite with_overview_lookup by discriminate.
Qed.

(** X10. Two requests that pass the visibility check for the same
    user get the same outcome and cause the same calls: beyond the check
    the view does not look at the requestor. *)
Theorem list_view_same_for_all_authorized (request request' : Request) (username : string) :
  outcome (_viewable_by_requestor request username) = inr true ->
  outcome (_viewable_by_requestor request' username) = inr true ->
  CertificatesListView_get request username = CertificatesListView_get request' username.
Proof. intros Hview Hview'. by rewrite !list_view_viewable. Qed.

End ListViewSorting.

(** ** The detail view, for any record *)

Section DetailViewBehaviour.

Context {CourseKey : Type} `{Platform CourseKey}.

(** X11. The detail view never raises and answers 200 or 404; it
    answers 200 exactly when the course id parses and the certificates
    API has a record, and it calls the certificates API at most once,
    with the requested username and the parsed key. *)
Theorem detail_view_status (request : Request) (username course_id : string) :
  exists resp,
    outcome (CertificatesDetailView_get request username course_id) = inr resp /\
    (status resp = 200 \/ status resp = 404) /\
    (status resp = 200 <->
     exists course_key user_cert,
       from_string course_id = Some course_key /\
       get_certificate_for_user username course_key = Some user_cert) /\
    forall u k,
      CallGetCertificateForUser u k ∈ trace (CertificatesDetailView_get request username course_id) ->
      trace (CertificatesDetailView_get request username course_id) =
        [CallGetCertificateForUser username k] /\
      u = username /\ from_string course_id = Some k.
Proof.
  unfold CertificatesDetailView_get.
  destruct (from_string course_id) as [course_key |] eqn:Hkey; simpl.
  - destruct (get_certificate_for_user username course_key) as [user_cert |] eqn:Hcert;
      simpl; eexists; (split; [reflexivity |]); simpl.
    + split_and!; [by left | split; [eauto | reflexivity] |].
      intros u k [= -> ->]%list_elem_of_singleton. auto.
    + split_and!; [by right | split; [discriminate |] |].
      * intros (k & c & [= <-] & Hc). congruence.
      * intros u k [= -> ->]%list_elem_of_singleton. auto.
  - eexists. split; [reflexivity |]. simpl.
    split_and!; [by right | split; [discriminate |] |].
    + intros (k & c & [=] & _).
    + intros u k [=]%list_elem_of_singleton.
Qed.

(** X12. A field the certificate record lacks is [None] in the
    response of the detail view, except the course id: without a course
    key in the record it is the string [None]. *)
Theorem detail_view_missing_fields (request : Request) (username course_id : string)
    (course_key : CourseKey) (user_cert : pydict CourseKey) :
  from_string course_id = Some course_key ->
  get_certificate_for_user username course_key = Some user_cert ->
  exists d,
    outcome (CertificatesDetailView_get request username course_id) =
      inr (mkResponse 200 (JsonObject d)) /\
    (user_cert !! "course_key" = None -> d !! "course_id" = Some (PStr "None")) /\
    (user_cert !! "username" = None -> d !! "username" = Some PNone) /\
    (user_cert !! "type" = None -> d !! "certificate_type" = Some PNone) /\
    (user_cert !! "created" = None -> d !! "created_date" = Some PNone) /\
    (user_cert !! "status" = None -> d !! "status" = Some PNone) /\
    (user_cert !! "is_passing" = None -> d !! "is_passing" = Some PNone) /\
    (user_cert !! "download_url" = None -> d !! "download_url" = Some PNone) /\
    (user_cert !! "grade" = None -> d !! "grade" = Some PNone).
Proof.
  intros Hkey Hcert. unfold CertificatesDetailView_get. rewrite Hkey. simpl.
  rewrite Hcert. simpl. eexists. split; [reflexivity |].
  unfold dict_get.
  split_and!; intros ->;
    repeat (rewrite lookup_insert_ne by discriminate); by rewrite lookup_insert_eq.
Qed.

End DetailViewBehaviour.

(** ** The permission classes of the list view *)

(** X13. The permission classes of the list view refuse a request
    that is not authenticated. When a request counts as a restricted
    application exactly if it does not count as an unrestricted one, it is
    admitted exactly when it is authenticated and, if restricted, has both
    the scope and the user filter for the requested user. *)
Theorem list_view_permission_classes (checks : PermissionChecks) :
  NotJwtRestrictedApplication checks = negb (JwtRestrictedApplication checks) ->
  (IsAuthenticated checks = false ->
   CertificatesListView_permission_classes checks = false) /\
  (CertificatesListView_permission_classes checks = true <->
   IsAuthenticated checks = true /\
   (JwtRestrictedApplication checks = true ->
    JwtHasScope checks = true /\ JwtHasUserFilterForRequestedUser checks = true)).
Proof.
  unfold CertificatesListView_permission_classes. intros ->.
  destruct (IsAuthenticated checks), (JwtRestrictedApplication checks),
    (JwtHasScope checks), (JwtHasUserFilterForRequestedUser checks); simpl;
    intuition congruence.
Qed.

(** ** The views on the small platform *)

Import Demo.

Lemma list_view_passing_viewable_sorted_witness :
  CertificatesListView_get bob "bob" = (bob_list_trace, inr bob_list_response) /\
  exists user_certs,
    bob_list_response = Response_ok (JsonArray (list_entry <$> user_certs)) /\
    Forall (fun c =>
              truthy (dict_get (list_entry c) "is_passing") = true /\
              exists ids course_overview,
                QueryCourseOverviews ids ∈ bob_list_trace /\
                (dict_get c "course_key", course_overview) ∈ get_from_ids_if_exists ids /\
                certificates_viewable_for_course course_overview = true)
      user_certs /\
    Sorted (fun a b => py_ascending (dict_get a "created_date") (dict_get b "created_date"))
      (list_entry <$> user_certs) /\
    forall ts,
      (fun e => dict_get e "created_date") <$> (list_entry <$> user_certs) = PDateTime <$> ts ->
      StronglySorted Z.le ts.
Proof.
  split; [reflexivity |].
  apply (list_view_passing_viewable_sorted bob "bob"). reflexivity.
Defined.

Lemma list_view_unauthorized_empty_witness :
  user_username mallory <> "bob" /\
  user_is_staff mallory = false /\
  (forall user, User_objects_get "bob" = Some user ->
                "course_certificates" ∉ visible_fields user) /\
  CertificatesListView_get mallory "bob" =
    ([QueryUser "bob"], inr (mkResponse 200 (JsonArray []))).
Proof.
  assert (Hvisible : forall user, User_objects_get "bob" = Some user ->
                                  "course_certificates" ∉ visible_fields user).
  { intros user [= <-]. apply (bool_decide_unpack _). by vm_compute. }
  split_and!; [discriminate | reflexivity | exact Hvisible |].
  apply (list_view_unauthorized_empty mallory "bob");
    [discriminate | reflexivity | exact Hvisible].
Defined.

Lemma list_view_unknown_user_witness :
  User_objects_get "nobody" = None /\
  outcome (_viewable_by_requestor bob "nobody") = inr false /\
  outcome (CertificatesListView_get bob "nobody") = inr (mkResponse 200 (JsonArray [])) /\
  forall (request' : Request) (username' : string),
    outcome (_viewable_by_requestor request' username') = inr false ->
    outcome (CertificatesListView_get request' username') =
    outcome (CertificatesListView_get bob "nobody").
Proof.
  split; [reflexivity |].
  apply (list_view_unknown_user bob "nobody"). reflexivity.
Defined.

Lemma list_view_one_certificate_per_course_witness :
  CertificatesListView_get bob "bob" = (bob_list_trace, inr bob_list_response) /\
  exists user_certs,
    data bob_list_response = JsonArray (list_entry <$> user_certs) /\
    NoDup ((fun c => dict_get c "course_key") <$> user_certs) /\
    Forall (fun c => exists c0 course_overview,
              last_passing (dict_get c "course_key") (get_certificates_for_user "bob")
                = Some c0 /\
              c = with_overview course_overview c0)
      user_certs.
Proof.
  split; [reflexivity |].
  apply (list_view_one_certificate_per_course bob "bob" bob_list_trace). reflexivity.
Defined.

Lemma list_view_entry_shape_witness :
  CertificatesListView_get bob "bob" = (bob_list_trace, inr bob_list_response) /\
  data bob_list_response =
    JsonArray
      [ list_entry (with_overview (mkOverview algebra "Algebra" "edX" true)
                      (certificate "bob" algebra 300 310 true "0.90"));
        list_entry (with_overview (mkOverview chemistry "Chemistry" "edX" true)
                      (certificate "bob" chemistry 500 510 true "0.98")) ] /\
  ("modified_date" ∉ documented_list_keys) /\
  Forall (fun e =>
            size e = 11%nat /\
            dom e = {[ "modified_date" ]} ∪ list_to_set documented_list_keys /\
            exists c0,
              c0 ∈ get_certificates_for_user "bob" /\
              e !! "modified_date" = Some (dict_get c0 "modified") /\
              e !! "course_id" = Some (PStr (text_type (dict_get c0 "course_key"))))
    [ list_entry (with_overview (mkOverview algebra "Algebra" "edX" true)
                    (certificate "bob" algebra 300 310 true "0.90"));
      list_entry (with_overview (mkOverview chemistry "Chemistry" "edX" true)
                    (certificate "bob" chemistry 500 510 true "0.98")) ].
Proof.
  split; [reflexivity |]. split; [reflexivity |].
  apply (list_view_entry_shape bob "bob" bob_list_trace bob_list_response);
    [reflexivity | reflexivity].
Defined.

Lemma detail_view_invalid_course_id_witness :
  from_string "nonsense" = None /\
  outcome (CertificatesDetailView_get bob "bob" "nonsense") =
    inr (mkResponse 404 (JsonObject {[ "error_code" := PStr "course_id_not_valid" ]})) /\
  trace (CertificatesDetailView_get bob "bob" "nonsense") =
    [LogWarning invalid_course_id_fmt "nonsense"] /\
  forall u k,
    CallGetCertificateForUser u k ∉ trace (CertificatesDetailView_get bob "bob" "nonsense").
Proof.
  split; [reflexivity |].
  apply (detail_view_invalid_course_id bob "bob" "nonsense"). reflexivity.
Defined.

Lemma detail_view_no_certificate_witness :
  from_string algebra = Some algebra /\
  get_certificate_for_user "carol" algebra = None /\
  outcome (CertificatesDetailView_get bob "carol" algebra) =
    inr (mkResponse 404 (JsonObject {[ "error_code" := PStr "no_certificate_for_user" ]})) /\
  forall (request' : Request) (username' course_id' : string),
    from_string course_id' = None ->
    outcome (CertificatesDetailView_get request' username' course_id') <>
    outcome (CertificatesDetailView_get bob "carol" algebra).
Proof.
  split; [reflexivity |]. split; [reflexivity |].
  apply (detail_view_no_certificate bob "carol" algebra algebra); reflexivity.
Defined.

Lemma detail_view_success_witness :
  from_string algebra = Some algebra /\
  get_certificate_for_user "bob" algebra =
    Some (certificate "bob" algebra 300 310 true "0.90") /\
  exists d,
    outcome (CertificatesDetailView_get bob "bob" algebra) =
      inr (mkResponse 200 (JsonObject d)) /\
    size d = 8%nat /\
    dom d = list_to_set documented_detail_keys /\
    d !! "username" = Some (dict_get (certificate "bob" algebra 300 310 true "0.90") "username") /\
    d !! "course_id" =
      Some (PStr (text_type (dict_get (certificate "bob" algebra 300 310 true "0.90")
                               "course_key"))) /\
    d !! "certificate_type" =
      Some (dict_get (certificate "bob" algebra 300 310 true "0.90") "type") /\
    d !! "created_date" =
      Some (dict_get (certificate "bob" algebra 300 310 true "0.90") "created") /\
    d !! "status" = Some (dict_get (certificate "bob" algebra 300 310 true "0.90") "status") /\
    d !! "is_passing" =
      Some (dict_get (certificate "bob" algebra 300 310 true "0.90") "is_passing") /\
    d !! "download_url" =
      Some (dict_get (certificate "bob" algebra 300 310 true "0.90") "download_url") /\
    d !! "grade" = Some (dict_get (certificate "bob" algebra 300 310 true "0.90") "grade").
Proof.
  split; [reflexivity |]. split; [reflexivity |].
  apply (detail_view_success bob "bob" algebra algebra); [reflexivity | reflexivity].
Defined.

(** C2 as stated fails: for bob's algebra certificate (valid course
    id, existing record) the view answers 200 with a body of eight
    fields, not nine. *)
Lemma detail_view_nine_fields_counterexample :
  from_string algebra = Some algebra /\
  get_certificate_for_user "bob" algebra =
    Some (certificate "bob" algebra 300 310 true "0.90") /\
  outcome (CertificatesDetailView_get bob "bob" algebra) =
    inr (mkResponse 200 (JsonObject bob_algebra_body)) /\
  size bob_algebra_body = 8%nat /\
  size bob_algebra_body <> 9%nat.
Proof.
  split_and!.
  - reflexivity.
  - reflexivity.
  - vm_compute. reflexivity.
  - vm_compute. reflexivity.
  - vm_compute. discriminate.
Qed.

(** ** The list view on ill-formed and tied data *)

Lemma list_view_lists_every_viewable_course_witness :
  outcome (_viewable_by_requestor bob "bob") = inr true /\
  CertificatesListView_get bob "bob" = (bob_list_trace, inr bob_list_response) /\
  exists ids user_certs,
    bob_list_trace =
      [QueryUser "bob"; CallGetCertificatesForUser "bob"; QueryCourseOverviews ids] /\
    bob_list_response = Response_ok (JsonArray (list_entry <$> user_certs)) /\
    length user_certs =
      length (filter (fun p => certificates_viewable_for_course p.2 = true)
                (get_from_ids_if_exists ids)) /\
    forall k ov,
      (k, ov) ∈ get_from_ids_if_exists ids ->
      certificates_viewable_for_course ov = true ->
      exists c0,
        last_passing k (get_certificates_for_user "bob") = Some c0 /\
        with_overview ov c0 ∈ user_certs.
Proof.
  split; [reflexivity |]. split; [reflexivity |].
  apply (list_view_lists_every_viewable_course bob "bob"); reflexivity.
Defined.

Lemma list_view_overview_query_witness :
  outcome (_viewable_by_requestor bob "bob") = inr true /\
  CertificatesListView_get bob "bob" = (bob_list_trace, inr bob_list_response) /\
  QueryCourseOverviews [PKey chemistry; PKey algebra; PKey drawing] ∈ bob_list_trace /\
  bob_list_trace =
    [QueryUser "bob"; CallGetCertificatesForUser "bob";
     QueryCourseOverviews [PKey chemistry; PKey algebra; PKey drawing]] /\
  NoDup [PKey chemistry; PKey algebra; PKey drawing] /\
  forall k,
    k ∈ [PKey chemistry; PKey algebra; PKey drawing] <->
    exists c, c ∈ get_certificates_for_user "bob" /\ is_passing c = true /\
              c !! "course_key" = Some k.
Proof.
  assert (Hquery : QueryCourseOverviews [PKey chemistry; PKey algebra; PKey drawing]
                   ∈ bob_list_trace).
  { unfold bob_list_trace. do 2 apply list_elem_of_further. apply list_elem_of_here. }
  split; [reflexivity |]. split; [reflexivity |]. split; [exact Hquery |].
  apply (list_view_overview_query bob "bob" bob_list_trace (inr bob_list_response));
    [reflexivity | reflexivity | exact Hquery].
Defined.

Lemma list_view_names_from_overview_witness :
  CertificatesListView_get bob "bob" = (bob_list_trace, inr bob_list_response) /\
  exists user_certs,
    data bob_list_response = JsonArray (list_entry <$> user_certs) /\
    Forall (fun c => exists ids course_overview,
              QueryCourseOverviews ids ∈ bob_list_trace /\
              (dict_get c "course_key", course_overview) ∈ get_from_ids_if_exists ids /\
              list_entry c !! "course_display_name" =
                Some (display_name_with_default course_overview) /\
              list_entry c !! "course_organization" =
                Some (display_org_with_default course_overview))
      user_certs.
Proof.
  split; [reflexivity |].
  apply (list_view_names_from_overview bob "bob"). reflexivity.
Defined.

Lemma list_view_missing_course_key_witness :
  outcome (@_viewable_by_requestor string Cases.no_key bob "bob") = inr true /\
  ((exists c, c ∈ @get_certificates_for_user string Cases.no_key "bob" /\
              @is_passing string c = true /\ c !! "course_key" = None) <->
   @CertificatesListView_get string Cases.no_key bob "bob" =
     ([QueryUser "bob"; CallGetCertificatesForUser "bob"], inl KeyError)).
Proof.
  split; [reflexivity |].
  apply (@list_view_missing_course_key string Cases.no_key bob "bob"). reflexivity.
Defined.

Lemma list_view_stray_overview_witness :
  outcome (@_viewable_by_requestor string Cases.stray bob "bob") = inr true /\
  @CertificatesListView_get string Cases.stray bob "bob" =
    ([QueryUser "bob"; CallGetCertificatesForUser "bob";
      QueryCourseOverviews [PKey chemistry]],
     outcome (@CertificatesListView_get string Cases.stray bob "bob")) /\
  QueryCourseOverviews [PKey chemistry] ∈
    [QueryUser "bob"; CallGetCertificatesForUser "bob";
     QueryCourseOverviews (CourseKey := string) [PKey chemistry]] /\
  (PKey drawing, mkOverview drawing "Drawing" "edX" true) ∈
    @get_from_ids_if_exists string Cases.stray [PKey chemistry] /\
  @certificates_viewable_for_course string Cases.stray
    (mkOverview drawing "Drawing" "edX" true) = true /\
  (PKey drawing ∉ [PKey (CourseKey := string) chemistry]) /\
  outcome (@CertificatesListView_get string Cases.stray bob "bob") = inl KeyError.
Proof.
  assert (Hquery : QueryCourseOverviews [PKey chemistry] ∈
            [QueryUser "bob"; CallGetCertificatesForUser "bob";
             QueryCourseOverviews (CourseKey := string) [PKey chemistry]]).
  { do 2 apply list_elem_of_further. apply list_elem_of_here. }
  assert (Hitem : (PKey drawing, mkOverview drawing "Drawing" "edX" true) ∈
            @get_from_ids_if_exists string Cases.stray [PKey chemistry]).
  { apply list_elem_of_here. }
  assert (Hstray : PKey drawing ∉ [PKey (CourseKey := string) chemistry]).
  { apply (bool_decide_unpack _). by vm_compute. }
  split_and!; [reflexivity | reflexivity | exact Hquery | exact Hitem | reflexivity
              | exact Hstray |].
  apply (@list_view_stray_overview string Cases.stray bob "bob"
           [QueryUser "bob"; CallGetCertificatesForUser "bob";
            QueryCourseOverviews [PKey chemistry]]
           (outcome (@CertificatesListView_get string Cases.stray bob "bob"))
           [PKey chemistry] (PKey drawing) (mkOverview drawing "Drawing" "edX" true));
    [reflexivity | reflexivity | exact Hquery | exact Hitem | reflexivity | exact Hstray].
Defined.

Lemma list_view_missing_created_witness :
  outcome (@_viewable_by_requestor string Cases.no_created bob "bob") = inr true /\
  @CertificatesListView_get string Cases.no_created bob "bob" =
    ([QueryUser "bob"; CallGetCertificatesForUser "bob";
      QueryCourseOverviews [PKey algebra]],
     outcome (@CertificatesListView_get string Cases.no_created bob "bob")) /\
  QueryCourseOverviews [PKey algebra] ∈
    [QueryUser "bob"; CallGetCertificatesForUser "bob";
     QueryCourseOverviews (CourseKey := string) [PKey algebra]] /\
  (PKey algebra, mkOverview algebra "Algebra" "edX" true) ∈
    @get_from_ids_if_exists string Cases.no_created [PKey algebra] /\
  @certificates_viewable_for_course string Cases.no_created
    (mkOverview algebra "Algebra" "edX" true) = true /\
  @last_passing string Cases.no_created (PKey algebra)
    (@get_certificates_for_user string Cases.no_created "bob")
    = Some (delete "created" (certificate "bob" algebra 100 110 true "0.70")) /\
  delete "created" (certificate "bob" algebra 100 110 true "0.70") !! "created" = None /\
  outcome (@CertificatesListView_get string Cases.no_created bob "bob") = inl KeyError.
Proof.
  assert (Hquery : QueryCourseOverviews [PKey algebra] ∈
            [QueryUser "bob"; CallGetCertificatesForUser "bob";
             QueryCourseOverviews (CourseKey := string) [PKey algebra]]).
  { do 2 apply list_elem_of_further. apply list_elem_of_here. }
  assert (Hitem : (PKey algebra, mkOverview algebra "Algebra" "edX" true) ∈
            @get_from_ids_if_exists string Cases.no_created [PKey algebra]).
  { vm_compute. apply list_elem_of_here. }
  split_and!; [reflexivity | reflexivity | exact Hquery | exact Hitem | reflexivity
              | reflexivity | reflexivity |].
  apply (@list_view_missing_created string Cases.no_created bob "bob"
           [QueryUser "bob"; CallGetCertificatesForUser "bob";
            QueryCourseOverviews [PKey algebra]]
           (outcome (@CertificatesListView_get string Cases.no_created bob "bob"))
           [PKey algebra] (PKey algebra) (mkOverview algebra "Algebra" "edX" true)
           (delete "created" (certificate "bob" algebra 100 110 true "0.70")));
    [reflexivity | reflexivity | exact Hquery | exact Hitem | reflexivity | reflexivity
    | reflexivity].
Defined.

Lemma list_view_created_None_witness :
  outcome (@_viewable_by_requestor string Cases.none_created bob "bob") = inr true /\
  @CertificatesListView_get string Cases.none_created bob "bob" =
    ([QueryUser "bob"; CallGetCertificatesForUser "bob";
      QueryCourseOverviews [PKey algebra; PKey chemistry]],
     outcome (@CertificatesListView_get string Cases.none_created bob "bob")) /\
  QueryCourseOverviews [PKey algebra; PKey chemistry] ∈
    [QueryUser "bob"; CallGetCertificatesForUser "bob";
     QueryCourseOverviews (CourseKey := string) [PKey algebra; PKey chemistry]] /\
  (PKey algebra, mkOverview algebra "Algebra" "edX" true) ∈
    @get_from_ids_if_exists string Cases.none_created [PKey algebra; PKey chemistry] /\
  @certificates_viewable_for_course string Cases.none_created
    (mkOverview algebra "Algebra" "edX" true) = true /\
  @last_passing string Cases.none_created (PKey algebra)
    (@get_certificates_for_user string Cases.none_created "bob")
    = Some (<[ "created" := PNone ]> (certificate "bob" algebra 100 110 true "0.70")) /\
  <[ "created" := PNone ]> (certificate "bob" algebra 100 110 true "0.70") !! "created"
    = Some PNone /\
  (2 <= length (filter (fun p => @certificates_viewable_for_course string Cases.none_created p.2
                                 = true)
                  (@get_from_ids_if_exists string Cases.none_created
                     [PKey algebra; PKey chemistry])))%nat /\
  exists e, outcome (@CertificatesListView_get string Cases.none_created bob "bob") = inl e.
Proof.
  assert (Hquery : QueryCourseOverviews [PKey algebra; PKey chemistry] ∈
            [QueryUser "bob"; CallGetCertificatesForUser "bob";
             QueryCourseOverviews (CourseKey := string) [PKey algebra; PKey chemistry]]).
  { do 2 apply list_elem_of_further. apply list_elem_of_here. }
  assert (Hitem : (PKey algebra, mkOverview algebra "Algebra" "edX" true) ∈
            @get_from_ids_if_exists string Cases.none_created [PKey algebra; PKey chemistry]).
  { vm_compute. apply list_elem_of_here. }
  assert (Hlen : (2 <= length (filter
                     (fun p => @certificates_viewable_for_course string Cases.none_created p.2
                               = true)
                     (@get_from_ids_if_exists string Cases.none_created
                        [PKey algebra; PKey chemistry])))%nat).
  { vm_compute. lia. }
  split_and!; [reflexivity | reflexivity | exact Hquery | exact Hitem | reflexivity
              | reflexivity | reflexivity | exact Hlen |].
  apply (@list_view_created_None string Cases.none_created bob "bob"
           [QueryUser "bob"; CallGetCertificatesForUser "bob";
            QueryCourseOverviews [PKey algebra; PKey chemistry]]
           (outcome (@CertificatesListView_get string Cases.none_created bob "bob"))
           [PKey algebra; PKey chemistry] (PKey algebra)
           (mkOverview algebra "Algebra" "edX" true)
           (<[ "created" := PNone ]> (certificate "bob" algebra 100 110 true "0.70")));
    [reflexivity | reflexivity | exact Hquery | exact Hitem | reflexivity | reflexivity
    | reflexivity | exact Hlen].
Defined.

Lemma list_view_single_certificate_witness :
  outcome (@_viewable_by_requestor string Cases.lone bob "bob") = inr true /\
  @CertificatesListView_get string Cases.lone bob "bob" =
    ([QueryUser "bob"; CallGetCertificatesForUser "bob";
      QueryCourseOverviews [PKey algebra]],
     outcome (@CertificatesListView_get string Cases.lone bob "bob")) /\
  QueryCourseOverviews [PKey algebra] ∈
    [QueryUser "bob"; CallGetCertificatesForUser "bob";
     QueryCourseOverviews (CourseKey := string) [PKey algebra]] /\
  filter (fun p => @certificates_viewable_for_course string Cases.lone p.2 = true)
    (@get_from_ids_if_exists string Cases.lone [PKey algebra])
    = [(PKey algebra, mkOverview algebra "Algebra" "edX" true)] /\
  @last_passing string Cases.lone (PKey algebra)
    (@get_certificates_for_user string Cases.lone "bob")
    = Some (<[ "created" := PNone ]> (certificate "bob" algebra 100 110 true "0.70")) /\
  is_Some (<[ "created" := PNone ]> (certificate "bob" algebra 100 110 true "0.70")
             !! "created") /\
  outcome (@CertificatesListView_get string Cases.lone bob "bob") =
    inr (@Response_ok string
           (JsonArray
              [@list_entry string Cases.lone
                 (@with_overview string Cases.lone (mkOverview algebra "Algebra" "edX" true)
                    (<[ "created" := PNone ]>
                       (certificate "bob" algebra 100 110 true "0.70")))])).
Proof.
  assert (Hquery : QueryCourseOverviews [PKey algebra] ∈
            [QueryUser "bob"; CallGetCertificatesForUser "bob";
             QueryCourseOverviews (CourseKey := string) [PKey algebra]]).
  { do 2 apply list_elem_of_further. apply list_elem_of_here. }
  assert (Hcreated : is_Some (<[ "created" := PNone ]>
                                (certificate "bob" algebra 100 110 true "0.70")
                                !! "created")).
  { exists PNone. reflexivity. }
  split_and!; [reflexivity | reflexivity | exact Hquery | reflexivity | reflexivity
              | exact Hcreated |].
  apply (@list_view_single_certificate string Cases.lone bob "bob"
           [QueryUser "bob"; CallGetCertificatesForUser "bob";
            QueryCourseOverviews [PKey algebra]]
           (outcome (@CertificatesListView_get string Cases.lone bob "bob"))
           [PKey algebra] (PKey algebra));
    [reflexivity | reflexivity | exact Hquery | reflexivity | reflexivity | exact Hcreated].
Defined.

Lemma list_view_ties_in_overview_order_witness :
  outcome (@_viewable_by_requestor string Cases.tied bob "bob") = inr true /\
  @CertificatesListView_get string Cases.tied bob "bob" =
    ([QueryUser "bob"; CallGetCertificatesForUser "bob";
      QueryCourseOverviews [PKey chemistry; PKey algebra; PKey biology]],
     inr (@Response_ok string
            (JsonArray
               (@list_entry string Cases.tied <$>
                  [ @with_overview string Cases.tied (mkOverview biology "Biology" "edX" true)
                      (certificate "bob" biology 100 110 true "0.60");
                    @with_overview string Cases.tied (mkOverview algebra "Algebra" "edX" true)
                      (certificate "bob" algebra 300 320 true "0.70");
                    @with_overview string Cases.tied
                      (mkOverview chemistry "Chemistry" "edX" true)
                      (certificate "bob" chemistry 300 310 true "0.98") ])))) /\
  QueryCourseOverviews [PKey chemistry; PKey algebra; PKey biology] ∈
    [QueryUser "bob"; CallGetCertificatesForUser "bob";
     QueryCourseOverviews (CourseKey := string) [PKey chemistry; PKey algebra; PKey biology]] /\
  Forall (fun c => @is_passing string c = true ->
                   exists ts, c !! "created" = Some (PDateTime ts))
    (@get_certificates_for_user string Cases.tied "bob") /\
  exists user_certs fetched,
    @Response_ok string
      (JsonArray
         (@list_entry string Cases.tied <$>
            [ @with_overview string Cases.tied (mkOverview biology "Biology" "edX" true)
                (certificate "bob" biology 100 110 true "0.60");
              @with_overview string Cases.tied (mkOverview algebra "Algebra" "edX" true)
                (certificate "bob" algebra 300 320 true "0.70");
              @with_overview string Cases.tied (mkOverview chemistry "Chemistry" "edX" true)
                (certificate "bob" chemistry 300 310 true "0.98") ]))
      = @Response_ok string (JsonArray (@list_entry string Cases.tied <$> user_certs)) /\
    Forall2 (fun c p => exists c1,
                 @last_passing string Cases.tied p.1
                   (@get_certificates_for_user string Cases.tied "bob") = Some c1 /\
                 c = @with_overview string Cases.tied p.2 c1)
      fetched
      (filter (fun p => @certificates_viewable_for_course string Cases.tied p.2 = true)
         (@get_from_ids_if_exists string Cases.tied
            [PKey chemistry; PKey algebra; PKey biology])) /\
    forall ts,
      filter (fun c => c !! "created" = Some (PDateTime ts)) user_certs =
      filter (fun c => c !! "created" = Some (PDateTime ts)) fetched.
Proof.
  assert (Hquery : QueryCourseOverviews [PKey chemistry; PKey algebra; PKey biology] ∈
            [QueryUser "bob"; CallGetCertificatesForUser "bob";
             QueryCourseOverviews (CourseKey := string)
               [PKey chemistry; PKey algebra; PKey biology]]).
  { do 2 apply list_elem_of_further. apply list_elem_of_here. }
  assert (Hdated : Forall (fun c => @is_passing string c = true ->
                                    exists ts, c !! "created" = Some (PDateTime ts))
                     (@get_certificates_for_user string Cases.tied "bob")).
  { repeat constructor; intros _; eexists; reflexivity. }
  split_and!; [reflexivity | vm_compute; reflexivity | exact Hquery | exact Hdated |].
  apply (@list_view_ties_in_overview_order string Cases.tied bob "bob"
           [QueryUser "bob"; CallGetCertificatesForUser "bob";
            QueryCourseOverviews [PKey chemistry; PKey algebra; PKey biology]]);
    [reflexivity | vm_compute; reflexivity | exact Hquery | exact Hdated].
Defined.

Lemma list_view_same_for_all_authorized_witness :
  outcome (_viewable_by_requestor bob "bob") = inr true /\
  outcome (_viewable_by_requestor Cases.staff "bob") = inr true /\
  CertificatesListView_get bob "bob" = CertificatesListView_get Cases.staff "bob".
Proof.
  split; [reflexivity |]. split; [reflexivity |].
  apply (list_view_same_for_all_authorized bob Cases.staff "bob"); reflexivity.
Defined.

Lemma detail_view_missing_fields_witness :
  @from_string string Cases.bare algebra = Some algebra /\
  @get_certificate_for_user string Cases.bare "bob" algebra
    = Some {[ "grade" := PStr "0.50" ]} /\
  exists d,
    outcome (@CertificatesDetailView_get string Cases.bare bob "bob" algebra) =
      inr (mkResponse 200 (JsonObject d)) /\
    (({[ "grade" := PStr "0.50" ]} : pydict string) !! "course_key" = None ->
     d !! "course_id" = Some (PStr "None")) /\
    (({[ "grade" := PStr "0.50" ]} : pydict string) !! "username" = None ->
     d !! "username" = Some PNone) /\
    (({[ "grade" := PStr "0.50" ]} : pydict string) !! "type" = None ->
     d !! "certificate_type" = Some PNone) /\
    (({[ "grade" := PStr "0.50" ]} : pydict string) !! "created" = None ->
     d !! "created_date" = Some PNone) /\
    (({[ "grade" := PStr "0.50" ]} : pydict string) !! "status" = None ->
     d !! "status" = Some PNone) /\
    (({[ "grade" := PStr "0.50" ]} : pydict string) !! "is_passing" = None ->
     d !! "is_passing" = Some PNone) /\
    (({[ "grade" := PStr "0.50" ]} : pydict string) !! "download_url" = None ->
     d !! "download_url" = Some PNone) /\
    (({[ "grade" := PStr "0.50" ]} : pydict string) !! "grade" = None ->
     d !! "grade" = Some PNone).
Proof.
  split; [reflexivity |]. split; [reflexivity |].
  apply (@detail_view_missing_fields string Cases.bare bob "bob" algebra algebra);
    reflexivity.
Defined.

Lemma list_view_permission_classes_witness :
  NotJwtRestrictedApplication (mkChecks true false true true false) =
    negb (JwtRestrictedApplication (mkChecks true false true true false)) /\
  (IsAuthenticated (mkChecks true false true true false) = false ->
   CertificatesListView_permission_classes (mkChecks true false true true false) = false) /\
  (CertificatesListView_permission_classes (mkChecks true false true true false) = true <->
   IsAuthenticated (mkChecks true false true true false) = true /\
   (JwtRestrictedApplication (mkChecks true false true true false) = true ->
    JwtHasScope (mkChecks true false true true false) = true /\
    JwtHasUserFilterForRequestedUser (mkChecks true false true true false) = true)).
Proof.
  split; [reflexivity |].
  apply (list_view_permission_classes (mkChecks true false true true false)). reflexivity.
Defined.

